(** * jmx_check: JMX monitoring through a Jolokia agent

    A shallow embedding of [jmx_check.py] (classes [MBeanResult], [MBean]
    and [JMXCheck]) and the properties of its threshold evaluation and of
    its response decoding.

    Conventions of the embedding (Python 3 semantics throughout):
    - a Python value that can come out of [json.loads] or be passed as a
      literal threshold is a [pyval]; an [int] is a [Z], a [float] is a
      binary64 number in the sense of [SpecFloat] ([prec = 53],
      [emax = 1024]), a [dict] is the list of its items in iteration order;
    - a method that can raise returns an [Outcome]; a method that talks to
      the agent or prints runs in [Py], a state-and-exception monad whose
      state counts the HTTP requests made and collects the printed lines;
    - what is outside the repository is a [World]: the answers of the agent
      to [requests.get], and the three textual conversions of the Python
      runtime that the code relies on for floats and containers. *)

From Stdlib Require Import ZArith List String Ascii Bool Lia.
From Stdlib Require Import DecimalString.
From Stdlib Require Import SpecFloat.
Import ListNotations.

Local Open Scope string_scope.
Local Open Scope Z_scope.

(** ** Values *)

#[warnings="-register-all"]
Inductive pyval : Type :=
| PNone
| PBool (b : bool)
| PInt (z : Z)
| PFloat (f : spec_float)
| PStr (s : string)
| PList (l : list pyval)
| PDict (items : list (string * pyval)).

(** ** Exceptions *)

Inductive exn : Type :=
| JolokiaInvalidResponse (msg : string)
| JolokiaConnectionError (msg : string)
| AssertionError
| KeyError (k : string)
| IndexError
| TypeError
| AttributeError
| ValueError
| ZeroDivisionError
| OverflowError
| LibraryError (name msg : string).

(** The exceptions the module documents ("Throws exceptions") and that its
    usage example catches: the subclasses of [ProgramException]. *)
Definition is_ProgramException (e : exn) : bool :=
  match e with
  | JolokiaInvalidResponse _ | JolokiaConnectionError _ => true
  | _ => false
  end.

Inductive Outcome (A : Type) : Type :=
| Returned (a : A)
| Raised (e : exn).
Arguments Returned {A} a.
Arguments Raised {A} e.

Definition and_then {A B : Type} (o : Outcome A) (k : A -> Outcome B) : Outcome B :=
  match o with
  | Returned a => k a
  | Raised e => Raised e
  end.

(** ** The interpreter state and the monad of effectful methods *)

Record State : Type := mkState {
  requests_made : nat;
  stdout : list string
}.

Definition Py (A : Type) : Type := State -> Outcome A * State.

Definition ret {A : Type} (a : A) : Py A := fun st => (Returned a, st).

Definition raise {A : Type} (e : exn) : Py A := fun st => (Raised e, st).

Definition bind {A B : Type} (m : Py A) (k : A -> Py B) : Py B :=
  fun st =>
    match m st with
    | (Returned a, st') => k a st'
    | (Raised e, st') => (Raised e, st')
    end.

Definition lift {A : Type} (o : Outcome A) : Py A := fun st => (o, st).

Definition printed (line : string) (st : State) : State :=
  mkState (requests_made st) (stdout st ++ [line])%list.

Definition print (line : string) : Py unit :=
  fun st => (Returned tt, printed line st).

Definition requested (st : State) : State :=
  mkState (S (requests_made st)) (stdout st).

Declare Scope py_scope.
Delimit Scope py_scope with py.
Notation "x <- m ;; k" := (bind m (fun x => k))
  (at level 61, m at next level, right associativity) : py_scope.
Notation "m ;;; k" := (bind m (fun _ => k))
  (at level 61, right associativity) : py_scope.
Local Open Scope py_scope.

(** ** The world outside the repository *)

Record Request : Type := mkRequest {
  url : string;
  auth : option (string * string);
  timeout : option (Z * Z)
}.

(** [json] is what [json.loads(response.content.decode())] evaluates to on
    this response: the decoded document, or the exception it raises. *)
Record Response : Type := mkResponse {
  status_code : Z;
  json : Outcome pyval
}.

(** The exceptions of [requests.get]; [str(exception)] is the message. *)
Inductive RequestsException : Type :=
| ConnectionError (msg : string)
| ConnectTimeout (msg : string)
| OtherRequestsException (name msg : string).

Inductive GetOutcome : Type :=
| GetRaises (e : RequestsException)
| GetReturns (r : Response).

(** [requests_get n rq] is the outcome of the [n]-th call of [requests.get]
    in this run (counting from 0) when it is made with request [rq].
    [float_of_str s] is [float(s)] on a [str] ([None]: [ValueError]);
    [str_of_float] is [str] on a [float]; [str_of_container] is [str] on a
    [list] or a [dict]. *)
Class World : Type := {
  requests_get : nat -> Request -> GetOutcome;
  float_of_str : string -> option spec_float;
  str_of_float : spec_float -> string;
  str_of_container : pyval -> string
}.

(** ** Python builtins used by the module *)

Definition prec : Z := 53.
Definition emax : Z := 1024.

Definition Z_to_string (z : Z) : string := NilZero.string_of_int (Z.to_int z).

Definition bool_to_Z (b : bool) : Z := if b then 1 else 0.

(** [str(v)], also what ["{}".format(v)] inserts. *)
Definition py_str `{World} (v : pyval) : string :=
  match v with
  | PNone => "None"
  | PBool true => "True"
  | PBool false => "False"
  | PInt z => Z_to_string z
  | PFloat f => str_of_float f
  | PStr s => s
  | PList _ | PDict _ => str_of_container v
  end.

(** Truth value of an attribute that is [None] or a [str]. *)
Definition truthy (o : option string) : bool :=
  match o with
  | Some s => negb (s =? "")%string
  | None => false
  end.

Fixpoint dict_get (k : string) (items : list (string * pyval)) : option pyval :=
  match items with
  | [] => None
  | (k', v) :: rest => if (k' =? k)%string then Some v else dict_get k rest
  end.

Definition dict_has (k : string) (items : list (string * pyval)) : bool :=
  match dict_get k items with
  | Some _ => true
  | None => false
  end.

(** [container[k]] for a [str] subscript [k]. *)
Definition py_getitem (container : pyval) (k : string) : Outcome pyval :=
  match container with
  | PDict items =>
      match dict_get k items with
      | Some v => Returned v
      | None => Raised (KeyError k)
      end
  | _ => Raised TypeError
  end.

(** [k in container] for a [str] [k]: key membership in a [dict], element
    membership in a [list], substring test in a [str]. *)
Definition py_contains (k : string) (container : pyval) : Outcome bool :=
  match container with
  | PDict items => Returned (dict_has k items)
  | PList l =>
      Returned (existsb (fun x => match x with PStr s => (s =? k)%string | _ => false end) l)
  | PStr s =>
      Returned (match index 0 k s with Some _ => true | None => false end)
  | _ => Raised TypeError
  end.

(** [container.keys()] followed by a membership test, and
    [container.items()]: only a [dict] has these methods. *)
Definition py_in_keys (k : string) (container : pyval) : Outcome bool :=
  match container with
  | PDict items => Returned (dict_has k items)
  | _ => Raised AttributeError
  end.

Definition py_items (container : pyval) : Outcome (list (string * pyval)) :=
  match container with
  | PDict items => Returned items
  | _ => Raised AttributeError
  end.

(** [l[0]] on a list. *)
Definition py_first {A : Type} (l : list A) : Outcome A :=
  match l with
  | x :: _ => Returned x
  | [] => Raised IndexError
  end.

(** *** Numbers *)

(** [float(z)] for an [int]: rounded to the nearest binary64, ties to even;
    [OverflowError] when the result is out of range. *)
Definition float_of_Z (z : Z) : Outcome spec_float :=
  match binary_normalize prec emax z 0 false with
  | S754_infinity _ => Raised OverflowError
  | f => Returned f
  end.

(** [float(v)]. *)
Definition py_float `{World} (v : pyval) : Outcome spec_float :=
  match v with
  | PFloat f => Returned f
  | PInt z => float_of_Z z
  | PBool b => float_of_Z (bool_to_Z b)
  | PStr s =>
      match float_of_str s with
      | Some f => Returned f
      | None => Raised ValueError
      end
  | PNone | PList _ | PDict _ => Raised TypeError
  end.

(** Comparison of an [int] with a [float]: Python compares the exact
    values, without converting the [int]. [None] when the float is a NaN. *)
Definition Z_compare_float (z : Z) (f : spec_float) : option comparison :=
  match f with
  | S754_nan => None
  | S754_infinity s => Some (if s then Gt else Lt)
  | S754_zero _ => Some (z ?= 0)
  | S754_finite s m e =>
      let mz := if s then Z.neg m else Z.pos m in
      Some (if 0 <=? e then z ?= mz * 2 ^ e else z * 2 ^ (- e) ?= mz)
  end.

(** [v ? f] for a value [v] and a float [f]: defined on numbers only. *)
Definition py_compare_float (v : pyval) (f : spec_float) : Outcome (option comparison) :=
  match v with
  | PInt z => Returned (Z_compare_float z f)
  | PBool b => Returned (Z_compare_float (bool_to_Z b) f)
  | PFloat g => Returned (SFcompare g f)
  | PNone | PStr _ | PList _ | PDict _ => Raised TypeError
  end.

(** [v >= f] and [v <= f]. *)
Definition py_ge (v : pyval) (f : spec_float) : Outcome bool :=
  and_then (py_compare_float v f) (fun c =>
    Returned match c with Some (Gt | Eq) => true | _ => false end).

Definition py_le (v : pyval) (f : spec_float) : Outcome bool :=
  and_then (py_compare_float v f) (fun c =>
    Returned match c with Some (Lt | Eq) => true | _ => false end).

Definition is_zero_float (f : spec_float) : bool :=
  match f with
  | S754_zero _ => true
  | _ => false
  end.

(** [a / b] on two [int]s: the quotient correctly rounded to binary64. *)
Definition int_true_divide (a b : Z) : Outcome spec_float :=
  if b =? 0 then Raised ZeroDivisionError
  else
    let negate := xorb (a <? 0) (b <? 0) in
    if a =? 0 then Returned (S754_zero negate)
    else
      let '(mz, ez, lz) := SFdiv_core_binary prec emax (Z.abs a) 0 (Z.abs b) 0 in
      match binary_round_aux prec emax negate mz ez lz with
      | S754_infinity _ => Raised OverflowError
      | f => Returned f
      end.

(** [a / b] as soon as one operand is a [float]: both are converted, then
    the divisor is tested. *)
Definition float_true_divide (a b : Outcome spec_float) : Outcome spec_float :=
  and_then a (fun x =>
  and_then b (fun y =>
    if is_zero_float y then Raised ZeroDivisionError
    else Returned (SFdiv prec emax x y))).

Definition as_int (v : pyval) : option Z :=
  match v with
  | PInt z => Some z
  | PBool b => Some (bool_to_Z b)
  | _ => None
  end.

Definition as_number (v : pyval) : option (Z + spec_float) :=
  match v with
  | PInt z => Some (inl z)
  | PBool b => Some (inl (bool_to_Z b))
  | PFloat f => Some (inr f)
  | _ => None
  end.


Definition number_to_float (n : Z + spec_float) : Outcome spec_float :=
  match n with
  | inl z => float_of_Z z
  | inr f => Returned f
  end.

(** [p / s] (true division). *)
Definition py_truediv (p s : pyval) : Outcome spec_float :=
  match as_number p, as_number s with
  | Some (inl a), Some (inl b) => int_true_divide a b
  | Some x, Some y => float_true_divide (number_to_float x) (number_to_float y)
  | _, _ => Raised TypeError
  end.

(** [x * 100] for a [float] [x]. *)
Definition float_100 : spec_float := binary_normalize prec emax 100 0 false.

Definition times_100 (x : spec_float) : spec_float := SFmul prec emax x float_100.

(** [round(x)] for a [float] [x]: the nearest [int], ties to even. *)
Definition round_half_even (m : Z) (k : Z) : Z :=
  let q := m / 2 ^ k in
  let r := m mod 2 ^ k in
  match 2 * r ?= 2 ^ k with
  | Lt => q
  | Gt => q + 1
  | Eq => if Z.even q then q else q + 1
  end.

Definition py_round (x : spec_float) : Outcome Z :=
  match x with
  | S754_nan => Raised ValueError
  | S754_infinity _ => Raised OverflowError
  | S754_zero _ => Returned 0
  | S754_finite s m e =>
      let n := if 0 <=? e then Z.pos m * 2 ^ e else round_half_even (Z.pos m) (- e) in
      Returned (if s then - n else n)
  end.

(** ** class MBeanResult *)

Module MBeanResult.

Record t : Type := mk {
  mbean_name : pyval;
  content : pyval;
  value : pyval
}.

Definition init (mbean_name content : pyval) : t :=
  {| mbean_name := mbean_name; content := content; value := PNone |}.

Definition get_value_from_result (self : t) (mbean_attribute : string)
    (mbean_key : option string) : Outcome pyval :=
  match mbean_key with
  | Some k =>
      if truthy mbean_key
      then and_then (py_getitem (content self) mbean_attribute) (fun a => py_getitem a k)
      else py_getitem (content self) mbean_attribute
  | None => py_getitem (content self) mbean_attribute
  end.

End MBeanResult.

(** ** class MBean *)

Module MBean.

Record t : Type := mk {
  mbean_name : string;
  attribute : string;
  key : option string;
  jolokia_host : string;
  jolokia_port : Z;
  jolokia_context : string;
  jolokia_user : option string;
  jolokia_pass : option string
}.

Fixpoint last_char (s : string) : option ascii :=
  match s with
  | EmptyString => None
  | String c EmptyString => Some c
  | String _ rest => last_char rest
  end.

(** [__init__], with the defaults of the keyword arguments left to the
    caller: the context gets its trailing slash; an empty context has no
    last character to look at. *)
Definition init (mbean_name attribute : string) (key : option string)
    (jolokia_host : string) (jolokia_port : Z) (jolokia_context : string)
    (jolokia_user jolokia_pass : option string) : Outcome t :=
  match last_char jolokia_context with
  | None => Raised IndexError
  | Some c =>
      Returned
        {| mbean_name := mbean_name;
           attribute := attribute;
           key := key;
           jolokia_host := jolokia_host;
           jolokia_port := jolokia_port;
           jolokia_context :=
             if (c =? "/")%char then jolokia_context else jolokia_context ++ "/";
           jolokia_user := jolokia_user;
           jolokia_pass := jolokia_pass |}
  end.

Definition request_url (self : t) : string :=
  ("http://" ++ jolokia_host self ++ ":" ++ Z_to_string (jolokia_port self)
     ++ "/" ++ jolokia_context self) ++ "read/" ++ mbean_name self.

(** The arguments of the call of [requests.get]. *)
Definition request (self : t) : Request :=
  match jolokia_user self, jolokia_pass self with
  | Some u, Some p =>
      if truthy (jolokia_user self) && truthy (jolokia_pass self)
      then mkRequest (request_url self) (Some (u, p)) (Some (5, 5))
      else mkRequest (request_url self) None None
  | _, _ => mkRequest (request_url self) None None
  end.

(** The [try] block: one call of [requests.get]; a connection error or a
    connect timeout becomes a [JolokiaConnectionError], any other
    exception goes through. *)
Definition get `{World} (self : t) : Py Response :=
  fun st =>
    let st' := requested st in
    match requests_get (requests_made st) (request self) with
    | GetReturns response => (Returned response, st')
    | GetRaises (ConnectionError msg) => (Raised (JolokiaConnectionError msg), st')
    | GetRaises (ConnectTimeout msg) => (Raised (JolokiaConnectionError msg), st')
    | GetRaises (OtherRequestsException name msg) => (Raised (LibraryError name msg), st')
    end.

(** The decoding of the parsed document, after the test for ['value']. *)
Definition metric_list `{World} (metrics : pyval) : Outcome (list MBeanResult.t) :=
  and_then (py_getitem metrics "request") (fun request =>
  and_then (py_in_keys "mbean" request) (fun single =>
    if single
    then
      and_then (py_getitem metrics "request") (fun request' =>
      and_then (py_getitem request' "mbean") (fun name =>
      and_then (py_getitem metrics "value") (fun value =>
        Returned [MBeanResult.init name value])))
    else
      and_then (py_getitem metrics "value") (fun value =>
      and_then (py_items value) (fun items =>
        Returned (map (fun kv => MBeanResult.init (PStr (fst kv)) (snd kv)) items))))).

Definition get_jmx_result `{World} (self : t) : Py (list MBeanResult.t) :=
  response <- get self ;;
  if negb (status_code response =? 200) then raise AssertionError
  else
    metrics <- lift (json response) ;;
    has_value <- lift (py_contains "value" metrics) ;;
    if negb has_value
    then raise (JolokiaInvalidResponse
                  ("Invalid response from Jolokia:" ++ String "010" "" ++ py_str metrics))
    else lift (metric_list metrics).

End MBean.

(** ** class JMXCheck *)

Module JMXCheck.

Record t : Type := mk {
  warn_explanation : string;
  crit_expalanation : string
}.

(** A threshold argument: a literal, or an [MBean] to fetch it from
    ([isinstance(thresh, MBean)]). *)
Inductive Threshold : Type :=
| Literal (v : pyval)
| Bean (m : MBean.t).

(** Short-circuit [and] and [or] on conditions that may raise. *)
Definition py_and (a b : Outcome bool) : Outcome bool :=
  and_then a (fun x => if x then b else Returned false).

Definition py_or (a b : Outcome bool) : Outcome bool :=
  and_then a (fun x => if x then Returned true else b).

(** The block that overrides a threshold given as an [MBean]; [which] is
    ["Warning"] or ["Critical"]. [inl] is the value of an early [return]. *)
Definition resolve_threshold `{World} (which : string) (thresh : Threshold)
    : Py ((Z * option string) + pyval) :=
  match thresh with
  | Bean m =>
      result <- MBean.get_jmx_result m ;;
      if (1 <? List.length result)%nat then
        print ("MONITORING ERROR - " ++ which
                 ++ " threshold is MBean and does not return a single value") ;;;
        ret (inl (2, None))
      else if (List.length result =? 0)%nat then
        print ("MONITORING ERROR - " ++ which
                 ++ " threshold is MBean and does not return a value") ;;;
        ret (inl (2, None))
      else
        first <- lift (py_first result) ;;
        v <- lift (MBeanResult.get_value_from_result first
                     (MBean.attribute m) (MBean.key m)) ;;
        ret (inr v)
  | Literal v => ret (inr v)
  end.

(** [m.get_jmx_result()[0].get_value_from_result(m.attribute, m.key)] *)
Definition first_value `{World} (m : MBean.t) : Py pyval :=
  result <- MBean.get_jmx_result m ;;
  first <- lift (py_first result) ;;
  lift (MBeanResult.get_value_from_result first (MBean.attribute m) (MBean.key m)).

(** The condition of the [if] (with the critical threshold) and of the
    [elif] (with the warning threshold). *)
Definition threshold_reached `{World} (compare reverse : bool)
    (mbean_value thresh : pyval) : Outcome bool :=
  py_or
    (py_and (Returned compare)
       (Returned (py_str mbean_value =? py_str thresh)%string))
    (py_or
       (py_and (Returned (negb compare))
          (py_and (Returned (negb reverse))
             (and_then (py_float thresh) (py_ge mbean_value))))
       (py_and (Returned (negb compare))
          (py_and (Returned reverse)
             (and_then (py_float thresh) (py_le mbean_value))))).

Definition classify `{World} (compare reverse : bool)
    (mbean_value warning_thresh critical_thresh : pyval) : Outcome Z :=
  and_then (threshold_reached compare reverse mbean_value critical_thresh)
    (fun critical =>
       if critical then Returned 2
       else
         and_then (threshold_reached compare reverse mbean_value warning_thresh)
           (fun warning => if warning then Returned 1 else Returned 0)).

(** The block under the first [if second_mbean:]: the value becomes a
    percentage of the second value, and the two factors are kept for the
    display. *)
Definition as_percentage `{World} (mbean_value : pyval)
    (second_mbean : option MBean.t) : Py (pyval * option string) :=
  match second_mbean with
  | Some second =>
      second_mbean_value <- first_value second ;;
      let mbean_percent_factors :=
        "(" ++ py_str mbean_value ++ "/" ++ py_str second_mbean_value ++ ")" in
      quotient <- lift (py_truediv mbean_value second_mbean_value) ;;
      percent <- lift (py_round (times_100 quotient)) ;;
      ret (PInt percent, Some mbean_percent_factors)
  | None => ret (mbean_value, None)
  end.

(** The returned string; the second [if second_mbean:]. *)
Definition display `{World} (mbean_value : pyval)
    (mbean_percent_factors : option string) : string :=
  match mbean_percent_factors with
  | Some factors => py_str mbean_value ++ "% " ++ factors
  | None => py_str mbean_value
  end.

Definition validate_result `{World} (mbean : MBean.t)
    (warning_thresh critical_thresh : Threshold) (compare : bool)
    (second_mbean : option MBean.t) (reverse : bool) : Py (Z * option string) :=
  w <- resolve_threshold "Warning" warning_thresh ;;
  match w with
  | inl early => ret early
  | inr warning_thresh =>
  c <- resolve_threshold "Critical" critical_thresh ;;
  match c with
  | inl early => ret early
  | inr critical_thresh =>
  mbean_value <- first_value mbean ;;
  adjusted <- as_percentage mbean_value second_mbean ;;
  let '(mbean_value, mbean_percent_factors) := adjusted in
  return_code <- lift (classify compare reverse mbean_value
                         warning_thresh critical_thresh) ;;
  ret (return_code, Some (display mbean_value mbean_percent_factors))
  end
  end.

Definition classification (return_code : Z) : string :=
  if return_code =? 1 then "WARNING"
  else if return_code =? 2 then "CRITICAL"
  else "OK".

Definition explanation (self : t) (return_code : Z) : string :=
  if return_code =? 1 then warn_explanation self
  else if return_code =? 2 then crit_expalanation self
  else "".

Definition py_str_opt (v : option string) : string :=
  match v with
  | Some s => s
  | None => "None"
  end.

Definition check_metric `{World} (self : t) (mbean : MBean.t)
    (warning_thresh critical_thresh : Threshold) (compare print_result : bool)
    (second_mbean : option MBean.t) (reverse : bool) : Py Z :=
  r <- validate_result mbean warning_thresh critical_thresh compare
         second_mbean reverse ;;
  let '(return_code, return_value) := r in
  (if print_result then
     print
       (match MBean.key mbean with
        | Some k =>
            if truthy (MBean.key mbean)
            then classification return_code ++ " - " ++ MBean.mbean_name mbean
                   ++ " A:" ++ MBean.attribute mbean ++ " K:" ++ k
                   ++ " : " ++ py_str_opt return_value
            else classification return_code ++ " - " ++ MBean.mbean_name mbean
                   ++ " A:" ++ MBean.attribute mbean
                   ++ " : " ++ py_str_opt return_value
        | None =>
            classification return_code ++ " - " ++ MBean.mbean_name mbean
              ++ " A:" ++ MBean.attribute mbean
              ++ " : " ++ py_str_opt return_value
        end) ;;;
     if negb (explanation self return_code =? "")%string
     then print (explanation self return_code ++ String "010" "")
     else ret tt
   else ret tt) ;;;
  ret return_code.

End JMXCheck.

(** ** A scripted agent, for the examples

    The agent answers by URL, whatever the rank of the request. The examples
    exchange [int]s and plain [str]s only: the string form of a float is
    never asked for in them, an integer literal is the only [str] that
    [float] is given, and the containers printed hold no character to
    escape. The conversions of this world are defined for these uses. *)

Module Scripted.

Fixpoint answer (answers : list (string * GetOutcome)) (u : string) : GetOutcome :=
  match answers with
  | [] => GetRaises (ConnectionError "Connection refused")
  | (u', o) :: rest => if (u' =? u)%string then o else answer rest u
  end.

(** [str] of a container whose strings need no escaping. *)
Fixpoint repr (v : pyval) : string :=
  match v with
  | PNone => "None"
  | PBool true => "True"
  | PBool false => "False"
  | PInt z => Z_to_string z
  | PFloat _ => "<float>"
  | PStr s => "'" ++ s ++ "'"
  | PList l =>
      "[" ++ (fix elements (l : list pyval) : string :=
                match l with
                | [] => ""
                | x :: [] => repr x
                | x :: rest => repr x ++ ", " ++ elements rest
                end) l ++ "]"
  | PDict items =>
      "{" ++ (fix entries (items : list (string * pyval)) : string :=
                match items with
                | [] => ""
                | (k, x) :: [] => "'" ++ k ++ "': " ++ repr x
                | (k, x) :: rest => "'" ++ k ++ "': " ++ repr x ++ ", " ++ entries rest
                end) items ++ "}"
  end.

Definition world (answers : list (string * GetOutcome)) : World :=
  {| requests_get := fun _ rq => answer answers (url rq);
     float_of_str := fun s =>
       match NilZero.int_of_string s with
       | Some d => Some (binary_normalize prec emax (Z.of_int d) 0 false)
       | None => None
       end;
     str_of_float := fun _ => "<float>";
     str_of_container := repr |}.

Definition bean (name : string) : MBean.t :=
  {| MBean.mbean_name := name;
     MBean.attribute := "Value";
     MBean.key := None;
     MBean.jolokia_host := "kafka1";
     MBean.jolokia_port := 8778;
     MBean.jolokia_context := "jolokia/";
     MBean.jolokia_user := None;
     MBean.jolokia_pass := None |}.

(** The answer to a read of one bean whose attribute [Value] is [v]. *)
Definition single (name : string) (v : pyval) : GetOutcome :=
  GetReturns
    (mkResponse 200
       (Returned
          (PDict [("request", PDict [("mbean", PStr name); ("type", PStr "read")]);
                  ("value", PDict [("Value", v)]);
                  ("status", PInt 200)]))).

(** The answer to a read of a bean pattern: one entry per matching bean. *)
Definition pattern (beans : list (string * pyval)) : GetOutcome :=
  GetReturns
    (mkResponse 200
       (Returned
          (PDict [("request", PDict [("type", PStr "read")]);
                  ("value",
                   PDict (map (fun kv => (fst kv, PDict [("Value", snd kv)])) beans));
                  ("status", PInt 200)]))).

Definition at_bean (name : string) (o : GetOutcome) : string * GetOutcome :=
  (MBean.request_url (bean name), o).

Definition start : State := mkState 0 [].

End Scripted.

(** ** The fetches of an evaluation

    [validate_result] calls [get_jmx_result] once for each threshold given
    as an [MBean], once for the primary MBean and once for the second MBean
    when there is one. *)

Definition threshold_fetches (thresh : JMXCheck.Threshold) : nat :=
  match thresh with
  | JMXCheck.Bean _ => 1
  | JMXCheck.Literal _ => 0
  end.

Definition second_fetches (second_mbean : option MBean.t) : nat :=
  match second_mbean with
  | Some _ => 1
  | None => 0
  end.

(** The part of the printed line that shows the key: [" K:{}"] when
    [mbean.key] is true, nothing otherwise. *)
Definition key_part (key : option string) : string :=
  match key with
  | Some k => if truthy key then " K:" ++ k else ""
  | None => ""
  end.

(** ** Properties *)

Import JMXCheck.

(** *** The monad *)

Lemma bind_returned {A B : Type} (m : Py A) (k : A -> Py B) (st st' : State) (a : A) :
  m st = (Returned a, st') -> bind m k st = k a st'.
Proof. intros E. unfold bind. rewrite E. reflexivity. Qed.

Lemma bind_raised {A B : Type} (m : Py A) (k : A -> Py B) (st st' : State) (e : exn) :
  m st = (Raised e, st') -> bind m k st = (Raised e, st').
Proof. intros E. unfold bind. rewrite E. reflexivity. Qed.

(** *** The conditions of the [if] and of the [elif] *)

Section Conditions.
Context `{World}.
Variables (mbean_value thresh : pyval).

Lemma threshold_reached_compare (reverse : bool) :
  threshold_reached true reverse mbean_value thresh
  = Returned (py_str mbean_value =? py_str thresh)%string.
Proof.
  unfold threshold_reached, py_or, py_and; simpl.
  destruct (py_str mbean_value =? py_str thresh)%string; reflexivity.
Qed.

Lemma threshold_reached_range :
  threshold_reached false false mbean_value thresh
  = and_then (py_float thresh) (py_ge mbean_value).
Proof.
  unfold threshold_reached, py_or, py_and; simpl.
  destruct (py_float thresh) as [f|e]; simpl; [|reflexivity].
  destruct (py_ge mbean_value f) as [[|]|e]; reflexivity.
Qed.

Lemma threshold_reached_reverse :
  threshold_reached false true mbean_value thresh
  = and_then (py_float thresh) (py_le mbean_value).
Proof.
  unfold threshold_reached, py_or, py_and; simpl.
  destruct (py_float thresh) as [f|e]; simpl; [|reflexivity].
  destruct (py_le mbean_value f) as [[|]|e]; reflexivity.
Qed.

End Conditions.

(** *** The phases of [validate_result] *)

(** When both thresholds resolve to values, the primary value is fetched and
    the percentage block succeeds, the result is the classification of the
    adjusted value, together with its display. *)
Lemma validate_result_phases `{World} (mbean : MBean.t) (tw tc : Threshold)
    (compare : bool) (second : option MBean.t) (reverse : bool)
    (w c v0 v : pyval) (factors : option string) (st st1 st2 st3 st4 : State) :
  resolve_threshold "Warning" tw st = (Returned (inr w), st1) ->
  resolve_threshold "Critical" tc st1 = (Returned (inr c), st2) ->
  first_value mbean st2 = (Returned v0, st3) ->
  as_percentage v0 second st3 = (Returned (v, factors), st4) ->
  validate_result mbean tw tc compare second reverse st
  = (and_then (classify compare reverse v w c)
       (fun return_code => Returned (return_code, Some (display v factors))),
     st4).
Proof.
  intros Hw Hc Hv Hp. unfold validate_result.
  rewrite (bind_returned _ _ _ _ _ Hw).
  rewrite (bind_returned _ _ _ _ _ Hc).
  rewrite (bind_returned _ _ _ _ _ Hv).
  rewrite (bind_returned _ _ _ _ _ Hp).
  unfold bind, lift, ret.
  destruct (classify compare reverse v w c); reflexivity.
Qed.

Lemma resolve_literal `{World} (which : string) (v : pyval) (st : State) :
  resolve_threshold which (Literal v) st = (Returned (inr v), st).
Proof. reflexivity. Qed.

Lemma as_percentage_none `{World} (v : pyval) (st : State) :
  as_percentage v None st = (Returned (v, None), st).
Proof. reflexivity. Qed.

(** *** Conversion of integer thresholds

    [float(c)] is exact on the integers of magnitude at most [2^53]; beyond,
    the threshold is rounded, and the exact comparison of the value with the
    rounded threshold can differ from the comparison with the threshold. *)

Lemma digits2_pos_iter_xO (p k : positive) :
  digits2_pos (Pos.iter xO p k) = (digits2_pos p + k)%positive.
Proof.
  induction k as [|k IH] using Pos.peano_ind.
  - simpl. lia.
  - rewrite Pos.iter_succ. simpl. rewrite IH. lia.
Qed.

Lemma Zpos_iter_xO (p k : positive) :
  Z.pos (Pos.iter xO p k) = Z.pos p * 2 ^ Z.pos k.
Proof.
  induction k as [|k IH] using Pos.peano_ind.
  - simpl. lia.
  - rewrite Pos.iter_succ, Pos2Z.inj_xO, IH, Pos2Z.inj_succ, Z.pow_succ_r by lia. lia.
Qed.

Lemma digits2_pos_lower (p : positive) :
  2 ^ (Z.pos (digits2_pos p) - 1) <= Z.pos p.
Proof.
  induction p as [p IH|p IH|]; simpl digits2_pos.
  - rewrite Pos2Z.inj_succ. replace (Z.succ (Z.pos (digits2_pos p)) - 1)
      with (Z.succ (Z.pos (digits2_pos p) - 1)) by lia.
    rewrite Z.pow_succ_r by lia. lia.
  - rewrite Pos2Z.inj_succ. replace (Z.succ (Z.pos (digits2_pos p)) - 1)
      with (Z.succ (Z.pos (digits2_pos p) - 1)) by lia.
    rewrite Z.pow_succ_r by lia. lia.
  - simpl. lia.
Qed.

Lemma digits2_pos_small (p : positive) :
  Z.pos p < 2 ^ 53 -> Z.pos (digits2_pos p) <= 53.
Proof.
  intros Hp. pose proof (digits2_pos_lower p) as Hl.
  assert (Hlt : 2 ^ (Z.pos (digits2_pos p) - 1) < 2 ^ 53) by lia.
  apply Z.pow_lt_mono_r_iff in Hlt; lia.
Qed.

Lemma shr_fexp_canonical (m : positive) (e : Z) :
  Z.pos (digits2_pos m) = 53 -> -1074 <= e ->
  shr_fexp prec emax (Z.pos m) e loc_Exact
  = ({| shr_m := Z.pos m; shr_r := false; shr_s := false |}, e).
Proof.
  intros Hd He. unfold shr_fexp, fexp, emin, prec, emax.
  change (Zdigits2 (Z.pos m)) with (Z.pos (digits2_pos m)). rewrite Hd.
  change (Z.sub (Z.sub 3 1024) 53) with (-1074).
  replace (Z.sub (Z.max (Z.sub (Z.add 53 e) 53) (-1074)) e) with 0 by lia.
  reflexivity.
Qed.

Lemma binary_round_aux_canonical (s : bool) (m : positive) (e : Z) :
  Z.pos (digits2_pos m) = 53 -> -1074 <= e <= 971 ->
  binary_round_aux prec emax s (Z.pos m) e loc_Exact = S754_finite s m e.
Proof.
  intros Hd He. unfold binary_round_aux.
  rewrite shr_fexp_canonical by lia.
  cbn [shr_m loc_of_shr_record round_nearest_even].
  rewrite shr_fexp_canonical by lia.
  cbn [shr_m]. unfold emax, prec.
  replace (e <=? 1024 - 53) with true by (symmetry; apply Z.leb_le; lia).
  reflexivity.
Qed.

Lemma binary_round_small (s : bool) (p : positive) :
  Z.pos p < 2 ^ 53 ->
  exists m e,
    binary_round prec emax s p 0 = S754_finite s m e
    /\ -52 <= e <= 0 /\ Z.pos m = Z.pos p * 2 ^ (- e).
Proof.
  intros Hp. pose proof (digits2_pos_small p Hp) as Hd.
  unfold binary_round, fexp, emin, prec, emax.
  change (Z.sub (Z.sub 3 1024) 53) with (-1074).
  replace (Z.max (Z.sub (Z.add (Z.pos (digits2_pos p)) 0) 53) (-1074))
    with (Z.pos (digits2_pos p) - 53) by lia.
  unfold shl_align.
  destruct (Z.sub (Z.pos (digits2_pos p) - 53) 0) as [|k|k] eqn:Ek; try lia.
  - exists p, 0. split; [|split]; [|lia|simpl; lia].
    apply (binary_round_aux_canonical s p 0); lia.
  - exists (Pos.iter xO p k), (Z.pos (digits2_pos p) - 53).
    split; [|split]; [|lia|].
    + apply (binary_round_aux_canonical s (Pos.iter xO p k)); [|lia].
      rewrite digits2_pos_iter_xO. lia.
    + rewrite Zpos_iter_xO. f_equal. f_equal. lia.
Qed.

Lemma Z_compare_scaled (a b k : Z) :
  0 < k -> (a * k ?= b * k) = (a ?= b).
Proof.
  intros Hk. destruct (Z.compare_spec a b) as [E|E|E].
  - subst. apply Z.compare_refl.
  - apply Z.compare_lt_iff. nia.
  - apply Z.compare_gt_iff. nia.
Qed.

Lemma Z_compare_float_exact (s : bool) (p m : positive) (e z : Z) :
  e <= 0 -> Z.pos m = Z.pos p * 2 ^ (- e) ->
  Z_compare_float z (S754_finite s m e)
  = Some (z ?= (if s then Z.neg p else Z.pos p)).
Proof.
  intros He Hm. unfold Z_compare_float. f_equal.
  assert (Hpow : 0 < 2 ^ (- e)) by (apply Z.pow_pos_nonneg; lia).
  destruct (0 <=? e) eqn:E.
  - apply Z.leb_le in E. assert (e = 0) by lia. subst e.
    simpl in Hm. destruct s; f_equal; lia.
  - destruct s.
    + replace (Z.neg m) with (Z.neg p * 2 ^ (- e)) by lia.
      apply Z_compare_scaled; assumption.
    + rewrite Hm. apply Z_compare_scaled; assumption.
Qed.

(** On the integers of magnitude at most [2^53] the conversion to a float
    is exact: comparing with the converted threshold is comparing with the
    threshold. *)
Lemma float_of_Z_exact (c : Z) :
  - 2 ^ 53 <= c <= 2 ^ 53 ->
  exists f, float_of_Z c = Returned f
            /\ forall z, Z_compare_float z f = Some (z ?= c).
Proof.
  intros Hc.
  destruct (Z.eq_dec c (2 ^ 53)) as [->|Hhi].
  { eexists. split; [reflexivity|]. intros z. unfold Z_compare_float.
    cbn -[Z.mul Z.compare]. f_equal. }
  destruct (Z.eq_dec c (- 2 ^ 53)) as [->|Hlo].
  { eexists. split; [reflexivity|]. intros z. unfold Z_compare_float.
    cbn -[Z.mul Z.compare]. f_equal. }
  unfold float_of_Z, binary_normalize.
  destruct c as [|p|p].
  - eexists. split; [reflexivity|]. reflexivity.
  - destruct (binary_round_small false p) as (m & e & E & He & Hm); [lia|].
    rewrite E. eexists. split; [reflexivity|]. intros z.
    apply (Z_compare_float_exact false p m e z); [lia|assumption].
  - destruct (binary_round_small true p) as (m & e & E & He & Hm); [lia|].
    rewrite E. eexists. split; [reflexivity|]. intros z.
    apply (Z_compare_float_exact true p m e z); [lia|assumption].
Qed.

Lemma range_condition_on_small_int `{World} (zv zc : Z) :
  - 2 ^ 53 <= zc <= 2 ^ 53 ->
  threshold_reached false false (PInt zv) (PInt zc) = Returned (zc <=? zv).
Proof.
  intros Hc. rewrite threshold_reached_range.
  destruct (float_of_Z_exact zc Hc) as (f & E & Hcmp).
  unfold py_float. rewrite E. unfold py_ge, py_compare_float, and_then.
  rewrite Hcmp. f_equal.
  destruct (Z.compare_spec zv zc); symmetry;
    [apply Z.leb_le | apply Z.leb_gt | apply Z.leb_le]; lia.
Qed.

Lemma reverse_condition_on_small_int `{World} (zv zc : Z) :
  - 2 ^ 53 <= zc <= 2 ^ 53 ->
  threshold_reached false true (PInt zv) (PInt zc) = Returned (zv <=? zc).
Proof.
  intros Hc. rewrite threshold_reached_reverse.
  destruct (float_of_Z_exact zc Hc) as (f & E & Hcmp).
  unfold py_float. rewrite E. unfold py_le, py_compare_float, and_then.
  rewrite Hcmp. unfold Z.leb. destruct (zv ?= zc); reflexivity.
Qed.

(** On integer values and integer thresholds of magnitude at most [2^53]
    the range classification is the one on the integers themselves. *)
Lemma classify_small_ints `{World} (reverse : bool) (zv zw zc : Z) :
  - 2 ^ 53 <= zw <= 2 ^ 53 ->
  - 2 ^ 53 <= zc <= 2 ^ 53 ->
  classify false reverse (PInt zv) (PInt zw) (PInt zc)
  = Returned (if reverse
              then if zv <=? zc then 2 else if zv <=? zw then 1 else 0
              else if zc <=? zv then 2 else if zw <=? zv then 1 else 0).
Proof.
  intros Hw Hc. unfold classify. destruct reverse.
  - rewrite !reverse_condition_on_small_int by assumption. simpl.
    destruct (zv <=? zc); [reflexivity|]. destruct (zv <=? zw); reflexivity.
  - rewrite !range_condition_on_small_int by assumption. simpl.
    destruct (zc <=? zv); [reflexivity|]. destruct (zw <=? zv); reflexivity.
Qed.

(** *** Range mode *)

(** The critical test comes first. In non-reverse, non-compare mode the
    test of the code is [mbean_value >= float(critical_thresh)]; when it
    holds, the severity is CRITICAL (2) whatever the warning threshold is,
    so that the warning test is never reached. *)
Lemma range_critical_checked_first `{World} (mbean : MBean.t) (tw tc : Threshold)
    (second : option MBean.t) (w c v0 v : pyval) (factors : option string)
    (fc : spec_float) (st st1 st2 st3 st4 : State) :
  resolve_threshold "Warning" tw st = (Returned (inr w), st1) ->
  resolve_threshold "Critical" tc st1 = (Returned (inr c), st2) ->
  first_value mbean st2 = (Returned v0, st3) ->
  as_percentage v0 second st3 = (Returned (v, factors), st4) ->
  py_float c = Returned fc ->
  py_ge v fc = Returned true ->
  validate_result mbean tw tc false second false st
  = (Returned (2, Some (display v factors)), st4).
Proof.
  intros Hw Hc Hv Hp Hf Hge.
  rewrite (validate_result_phases _ _ _ _ _ _ _ _ _ _ _ _ _ _ _ _ Hw Hc Hv Hp).
  unfold classify. rewrite threshold_reached_range, Hf. simpl.
  rewrite Hge. reflexivity.
Qed.

(** Value 1, warning 1, critical 1: CRITICAL. *)
Lemma range_critical_checked_first_witness :
  py_float (H := Scripted.world []) (PInt 1)
  = Returned (S754_finite false 4503599627370496 (-52))
  /\ py_ge (PInt 1) (S754_finite false 4503599627370496 (-52)) = Returned true
  /\ validate_result
       (H := Scripted.world [Scripted.at_bean "b" (Scripted.single "b" (PInt 1))])
       (Scripted.bean "b") (Literal (PInt 1)) (Literal (PInt 1)) false None false
       Scripted.start
     = (Returned (2, Some "1"), mkState 1 []).
Proof.
  split; [reflexivity|]. split; [reflexivity|].
  apply (range_critical_checked_first
           (H := Scripted.world [Scripted.at_bean "b" (Scripted.single "b" (PInt 1))])
           (Scripted.bean "b") (Literal (PInt 1)) (Literal (PInt 1)) None
           (PInt 1) (PInt 1) (PInt 1) (PInt 1) None
           (S754_finite false 4503599627370496 (-52))
           Scripted.start Scripted.start Scripted.start (mkState 1 []) (mkState 1 []));
    reflexivity.
Defined.

(** On an integer critical threshold of magnitude at most [2^53] the
    conversion is exact and the test is [v >= c]: there an integer value
    that is at least the critical threshold is CRITICAL, whatever the
    warning threshold is. *)
Lemma range_critical_on_exact_threshold `{World} (mbean : MBean.t)
    (tw tc : Threshold) (second : option MBean.t) (w v0 : pyval) (zv zc : Z)
    (factors : option string) (st st1 st2 st3 st4 : State) :
  resolve_threshold "Warning" tw st = (Returned (inr w), st1) ->
  resolve_threshold "Critical" tc st1 = (Returned (inr (PInt zc)), st2) ->
  first_value mbean st2 = (Returned v0, st3) ->
  as_percentage v0 second st3 = (Returned (PInt zv, factors), st4) ->
  - 2 ^ 53 <= zc <= 2 ^ 53 ->
  zv >= zc ->
  validate_result mbean tw tc false second false st
  = (Returned (2, Some (display (PInt zv) factors)), st4).
Proof.
  intros Hw Hc Hv Hp Hexact Hge.
  rewrite (validate_result_phases _ _ _ _ _ _ _ _ _ _ _ _ _ _ _ _ Hw Hc Hv Hp).
  unfold classify. rewrite range_condition_on_small_int by assumption.
  replace (zc <=? zv) with true by (symmetry; apply Z.leb_le; lia).
  reflexivity.
Qed.

(** C1 fails on the code. The docstring of [validate_result] gives the
    critical threshold as "equals or greater". The value
    [9007199254740995] ([2^53 + 3]) is equal to the critical threshold
    [9007199254740995], so [v >= c] holds; but [float] rounds the threshold
    to [9007199254740996.0] and the value, an [int] compared exactly with
    that float, is below it. The critical test is false, the warning test
    (threshold 0) is true, and the severity returned is WARNING (1), not
    CRITICAL. *)
Theorem range_critical_fails_beyond_2_53 :
  (9007199254740995 >= 9007199254740995)
  /\ float_of_Z 9007199254740995 = Returned (S754_finite false 4503599627370498 1)
  /\ py_ge (PInt 9007199254740995) (S754_finite false 4503599627370498 1)
     = Returned false
  /\ validate_result
       (H := Scripted.world
               [Scripted.at_bean "b" (Scripted.single "b" (PInt 9007199254740995))])
       (Scripted.bean "b") (Literal (PInt 0)) (Literal (PInt 9007199254740995))
       false None false Scripted.start
     = (Returned (1, Some "9007199254740995"), mkState 1 []).
Proof.
  split; [lia|]. split; [reflexivity|]. split; [reflexivity|].
  vm_compute. reflexivity.
Qed.

(** Reverse mode inverts both tests, which are made against the converted
    thresholds: [v <= float(c)] gives CRITICAL; else [v <= float(w)] gives
    WARNING; else the severity is OK. The warning threshold is converted
    only when the critical test is false. *)
Lemma reverse_inverts_comparisons `{World} (mbean : MBean.t) (tw tc : Threshold)
    (second : option MBean.t) (w c v0 v : pyval) (factors : option string)
    (fc : spec_float) (below_c : bool) (st st1 st2 st3 st4 : State) :
  resolve_threshold "Warning" tw st = (Returned (inr w), st1) ->
  resolve_threshold "Critical" tc st1 = (Returned (inr c), st2) ->
  first_value mbean st2 = (Returned v0, st3) ->
  as_percentage v0 second st3 = (Returned (v, factors), st4) ->
  py_float c = Returned fc ->
  py_le v fc = Returned below_c ->
  validate_result mbean tw tc false second true st
  = (if below_c then Returned (2, Some (display v factors))
     else
       and_then (py_float w) (fun fw =>
       and_then (py_le v fw) (fun below_w =>
         Returned ((if below_w then 1 else 0), Some (display v factors)))),
     st4).
Proof.
  intros Hw Hc Hv Hp Hfc Hlc.
  rewrite (validate_result_phases _ _ _ _ _ _ _ _ _ _ _ _ _ _ _ _ Hw Hc Hv Hp).
  unfold classify. rewrite !threshold_reached_reverse, Hfc. simpl.
  rewrite Hlc. destruct below_c; simpl; [reflexivity|].
  destruct (py_float w) as [fw|e]; simpl; [|reflexivity].
  destruct (py_le v fw) as [[|]|e]; reflexivity.
Qed.

(** Value 15 between critical 10 and warning 20 in reverse mode: WARNING. *)
Lemma reverse_inverts_comparisons_witness :
  py_float (H := Scripted.world []) (PInt 10)
  = Returned (S754_finite false 5629499534213120 (-49))
  /\ py_le (PInt 15) (S754_finite false 5629499534213120 (-49)) = Returned false
  /\ validate_result
       (H := Scripted.world [Scripted.at_bean "b" (Scripted.single "b" (PInt 15))])
       (Scripted.bean "b") (Literal (PInt 20)) (Literal (PInt 10)) false None true
       Scripted.start
     = (Returned (1, Some "15"), mkState 1 []).
Proof.
  repeat (split; [reflexivity|]).
  rewrite (reverse_inverts_comparisons
             (H := Scripted.world [Scripted.at_bean "b" (Scripted.single "b" (PInt 15))])
             (Scripted.bean "b") (Literal (PInt 20)) (Literal (PInt 10)) None
             (PInt 20) (PInt 10) (PInt 15) (PInt 15) None
             (S754_finite false 5629499534213120 (-49)) false
             Scripted.start Scripted.start Scripted.start (mkState 1 []) (mkState 1 []));
    reflexivity.
Defined.

(** On integer thresholds of magnitude at most [2^53] the conversions are
    exact and the tests are [v <= c] and [v <= w]: there, for an integer
    value, [v <= c] gives CRITICAL, else [v <= w] gives WARNING, else the
    severity is OK. *)
Lemma reverse_on_exact_thresholds `{World} (mbean : MBean.t)
    (tw tc : Threshold) (second : option MBean.t) (v0 : pyval) (zv zw zc : Z)
    (factors : option string) (st st1 st2 st3 st4 : State) :
  resolve_threshold "Warning" tw st = (Returned (inr (PInt zw)), st1) ->
  resolve_threshold "Critical" tc st1 = (Returned (inr (PInt zc)), st2) ->
  first_value mbean st2 = (Returned v0, st3) ->
  as_percentage v0 second st3 = (Returned (PInt zv, factors), st4) ->
  - 2 ^ 53 <= zw <= 2 ^ 53 ->
  - 2 ^ 53 <= zc <= 2 ^ 53 ->
  validate_result mbean tw tc false second true st
  = (Returned ((if zv <=? zc then 2 else if zv <=? zw then 1 else 0),
               Some (display (PInt zv) factors)), st4).
Proof.
  intros Hw Hc Hv Hp Ew Ec.
  rewrite (validate_result_phases _ _ _ _ _ _ _ _ _ _ _ _ _ _ _ _ Hw Hc Hv Hp).
  rewrite (classify_small_ints true zv zw zc Ew Ec). reflexivity.
Qed.

(** C2 fails on the code. The docstring of [validate_result] counts a value
    equal to the threshold as reaching it, and reverse mode only reverses
    the direction. The value [9007199254740993] ([2^53 + 1]) is equal to the
    critical threshold [9007199254740993], so [v <= c] holds; but [float]
    rounds the threshold to [9007199254740992.0] and the value, an [int]
    compared exactly with that float, is above it. The critical test is
    false, and so is the warning test (same threshold): the severity
    returned is OK (0), not CRITICAL. *)
Theorem reverse_critical_fails_beyond_2_53 :
  (9007199254740993 <= 9007199254740993)
  /\ float_of_Z 9007199254740993 = Returned (S754_finite false 4503599627370496 1)
  /\ py_le (PInt 9007199254740993) (S754_finite false 4503599627370496 1)
     = Returned false
  /\ validate_result
       (H := Scripted.world
               [Scripted.at_bean "b" (Scripted.single "b" (PInt 9007199254740993))])
       (Scripted.bean "b") (Literal (PInt 9007199254740993))
       (Literal (PInt 9007199254740993)) false None true Scripted.start
     = (Returned (0, Some "9007199254740993"), mkState 1 []).
Proof.
  split; [lia|]. split; [reflexivity|]. split; [reflexivity|].
  vm_compute. reflexivity.
Qed.

(** *** Compare mode *)

(** C3. In compare mode the classification is by equality of the string
    forms only: equal to the critical threshold gives CRITICAL, also when
    the warning threshold matches; else equal to the warning threshold
    gives WARNING; else OK. No conversion or comparison of numbers takes
    place, so this holds for every value and every pair of thresholds. *)
Theorem compare_is_string_equality `{World} (mbean : MBean.t) (tw tc : Threshold)
    (second : option MBean.t) (reverse : bool) (w c v0 v : pyval)
    (factors : option string) (st st1 st2 st3 st4 : State) :
  resolve_threshold "Warning" tw st = (Returned (inr w), st1) ->
  resolve_threshold "Critical" tc st1 = (Returned (inr c), st2) ->
  first_value mbean st2 = (Returned v0, st3) ->
  as_percentage v0 second st3 = (Returned (v, factors), st4) ->
  validate_result mbean tw tc true second reverse st
  = (Returned ((if (py_str v =? py_str c)%string then 2
                else if (py_str v =? py_str w)%string then 1
                else 0),
               Some (display v factors)), st4).
Proof.
  intros Hw Hc Hv Hp.
  rewrite (validate_result_phases _ _ _ _ _ _ _ _ _ _ _ _ _ _ _ _ Hw Hc Hv Hp).
  unfold classify. rewrite !threshold_reached_compare. simpl.
  destruct (py_str v =? py_str c)%string; simpl; [reflexivity|].
  destruct (py_str v =? py_str w)%string; reflexivity.
Qed.

(** The example of C3: value 3, critical "3", warning "3". *)
Lemma compare_is_string_equality_witness :
  validate_result
    (H := Scripted.world [Scripted.at_bean "b" (Scripted.single "b" (PInt 3))])
    (Scripted.bean "b") (Literal (PStr "3")) (Literal (PStr "3")) true None false
    Scripted.start
  = (Returned (2, Some "3"), mkState 1 []).
Proof.
  apply (compare_is_string_equality
           (H := Scripted.world [Scripted.at_bean "b" (Scripted.single "b" (PInt 3))])
           (Scripted.bean "b") (Literal (PStr "3")) (Literal (PStr "3")) None false
           (PStr "3") (PStr "3") (PInt 3) (PInt 3) None
           Scripted.start Scripted.start Scripted.start (mkState 1 []) (mkState 1 []));
    reflexivity.
Defined.

(** *** The percentage of a second MBean *)






(** *** Decoding the answer of the agent *)

Lemma get_returns `{World} (self : MBean.t) (st : State) (response : Response) :
  requests_get (requests_made st) (MBean.request self) = GetReturns response ->
  MBean.get self st = (Returned response, requested st).
Proof. intros E. unfold MBean.get. rewrite E. reflexivity. Qed.

(** C6. On a 200 answer whose document has a ['value'] key and a
    ['request'] object: if the request object has an ['mbean'] key, there is
    exactly one sample, its name is that identifier and its content is the
    ['value'] object; otherwise there is one sample per entry of the
    ['value'] mapping, in its order, whose name is the key of the entry and
    whose content is the value of the entry. *)
Theorem samples_of_response `{World} (self : MBean.t) (st : State)
    (response : Response) (document request : list (string * pyval))
    (value : pyval) :
  requests_get (requests_made st) (MBean.request self) = GetReturns response ->
  status_code response = 200 ->
  json response = Returned (PDict document) ->
  dict_get "value" document = Some value ->
  dict_get "request" document = Some (PDict request) ->
  (forall name,
      dict_get "mbean" request = Some name ->
      exists sample,
        MBean.get_jmx_result self st = (Returned [sample], requested st)
        /\ MBeanResult.mbean_name sample = name
        /\ MBeanResult.content sample = value)
  /\ (forall entries,
         dict_get "mbean" request = None ->
         value = PDict entries ->
         exists samples,
           MBean.get_jmx_result self st = (Returned samples, requested st)
           /\ map (fun sample =>
                     (MBeanResult.mbean_name sample, MBeanResult.content sample))
                 samples
              = map (fun kv => (PStr (fst kv), snd kv)) entries).
Proof.
  intros Hget Hstatus Hjson Hvalue Hrequest.
  assert (Hrun : MBean.get_jmx_result self st
                 = (MBean.metric_list (PDict document), requested st)).
  { unfold MBean.get_jmx_result.
    rewrite (bind_returned _ _ _ _ _ (get_returns _ _ _ Hget)).
    rewrite Hstatus. simpl. unfold bind, lift. rewrite Hjson. simpl.
    unfold dict_has. rewrite Hvalue. reflexivity. }
  rewrite Hrun. unfold MBean.metric_list. simpl.
  rewrite Hrequest, Hvalue. simpl. unfold dict_has.
  split.
  - intros name Hname. rewrite Hname. simpl.
    eexists. split; [reflexivity|]. split; reflexivity.
  - intros entries Hname ->. rewrite Hname. simpl.
    eexists. split; [reflexivity|].
    rewrite map_map. apply map_ext. intros [k v]. reflexivity.
Qed.

(** The two examples of the specification: a read of one bean, and a read
    of a pattern that matches two beans. *)
Lemma samples_of_response_witness :
  (exists sample,
      MBean.get_jmx_result
        (H := Scripted.world
                [Scripted.at_bean "foo:type=Bar"
                   (GetReturns
                      (mkResponse 200
                         (Returned
                            (PDict [("value", PDict [("Value", PInt 7)]);
                                    ("request",
                                     PDict [("mbean", PStr "foo:type=Bar")])]))))])
        (Scripted.bean "foo:type=Bar") Scripted.start
      = (Returned [sample], mkState 1 [])
      /\ MBeanResult.mbean_name sample = PStr "foo:type=Bar"
      /\ MBeanResult.content sample = PDict [("Value", PInt 7)])
  /\ (exists samples,
         MBean.get_jmx_result
           (H := Scripted.world
                   [Scripted.at_bean "foo:*"
                      (GetReturns
                         (mkResponse 200
                            (Returned
                               (PDict [("value",
                                        PDict [("bean1", PDict [("Value", PInt 1)]);
                                               ("bean2", PDict [("Value", PInt 2)])]);
                                       ("request", PDict [])]))))])
           (Scripted.bean "foo:*") Scripted.start
         = (Returned samples, mkState 1 [])
         /\ map (fun sample =>
                   (MBeanResult.mbean_name sample, MBeanResult.content sample))
               samples
            = [(PStr "bean1", PDict [("Value", PInt 1)]);
               (PStr "bean2", PDict [("Value", PInt 2)])]).
Proof.
  split.
  - apply (proj1 (samples_of_response
                    (H := Scripted.world
                            [Scripted.at_bean "foo:type=Bar"
                               (GetReturns
                                  (mkResponse 200
                                     (Returned
                                        (PDict [("value", PDict [("Value", PInt 7)]);
                                                ("request",
                                                 PDict [("mbean", PStr "foo:type=Bar")])]))))])
                    (Scripted.bean "foo:type=Bar") Scripted.start _ _ _ _
                    eq_refl eq_refl eq_refl eq_refl eq_refl)).
    reflexivity.
  - apply (proj2 (samples_of_response
                    (H := Scripted.world
                            [Scripted.at_bean "foo:*"
                               (GetReturns
                                  (mkResponse 200
                                     (Returned
                                        (PDict [("value",
                                                 PDict [("bean1", PDict [("Value", PInt 1)]);
                                                        ("bean2", PDict [("Value", PInt 2)])]);
                                                ("request", PDict [])]))))])
                    (Scripted.bean "foo:*") Scripted.start _ _ _ _
                    eq_refl eq_refl eq_refl eq_refl eq_refl)
             [("bean1", PDict [("Value", PInt 1)]);
              ("bean2", PDict [("Value", PInt 2)])]);
      reflexivity.
Defined.

(** On a 200 answer whose document is a container in which ['value'] is
    not found (an object without that key, a list without that element, a
    string without that substring), [get_jmx_result] raises
    [JolokiaInvalidResponse]; the message ends with the string form of the
    parsed document; no sample is returned. *)
Lemma missing_value_is_invalid_response `{World} (self : MBean.t) (st : State)
    (response : Response) (metrics : pyval) :
  requests_get (requests_made st) (MBean.request self) = GetReturns response ->
  status_code response = 200 ->
  json response = Returned metrics ->
  py_contains "value" metrics = Returned false ->
  MBean.get_jmx_result self st
  = (Raised (JolokiaInvalidResponse
               ("Invalid response from Jolokia:" ++ String "010" ""
                  ++ py_str metrics)),
     requested st).
Proof.
  intros Hget Hstatus Hjson Hvalue. unfold MBean.get_jmx_result.
  rewrite (bind_returned _ _ _ _ _ (get_returns _ _ _ Hget)).
  rewrite Hstatus. simpl. unfold bind, lift. rewrite Hjson, Hvalue. reflexivity.
Qed.

(** An object without ['value']: the message shows the document. *)
Lemma missing_value_is_invalid_response_witness :
  MBean.get_jmx_result
    (H := Scripted.world
            [Scripted.at_bean "foo:type=Bar"
               (GetReturns
                  (mkResponse 200
                     (Returned
                        (PDict [("error", PStr "javax.management.InstanceNotFoundException");
                                ("status", PInt 404)]))))])
    (Scripted.bean "foo:type=Bar") Scripted.start
  = (Raised (JolokiaInvalidResponse
               ("Invalid response from Jolokia:" ++ String "010" ""
                  ++ "{'error': 'javax.management.InstanceNotFoundException', 'status': 404}")),
     mkState 1 []).
Proof.
  apply (missing_value_is_invalid_response
           (H := Scripted.world
                   [Scripted.at_bean "foo:type=Bar"
                      (GetReturns
                         (mkResponse 200
                            (Returned
                               (PDict [("error",
                                        PStr "javax.management.InstanceNotFoundException");
                                       ("status", PInt 404)]))))])
           (Scripted.bean "foo:type=Bar") Scripted.start _ _
           eq_refl eq_refl eq_refl eq_refl).
Defined.

(** C7 fails on the code. [JolokiaInvalidResponse] is documented as "Raised
    when Jolokia returns a reponse we did not expect or with unknown
    format", and the test of line 168 is commented "We got something
    unexpected from Jolokia". The agent answers 200 with the JSON body
    [null], which has no ['value'] key; but ['value' not in metrics] is
    evaluated on [None], which is not a container: it raises [TypeError],
    which is none of the two exceptions of the module, and no
    [JolokiaInvalidResponse] is raised. *)
Theorem missing_value_in_null_body_raises_TypeError :
  MBean.get_jmx_result
    (H := Scripted.world
            [Scripted.at_bean "foo:type=Bar"
               (GetReturns (mkResponse 200 (Returned PNone)))])
    (Scripted.bean "foo:type=Bar") Scripted.start
  = (Raised TypeError, mkState 1 [])
  /\ is_ProgramException TypeError = false.
Proof. split; vm_compute; reflexivity. Qed.

(** C9. On an answer whose status is not 200 the [assert] fails:
    [get_jmx_result] raises [AssertionError], which is none of the two
    exceptions of the module. *)
Theorem unexpected_status_fails_assertion `{World} (self : MBean.t) (st : State)
    (response : Response) :
  requests_get (requests_made st) (MBean.request self) = GetReturns response ->
  status_code response <> 200 ->
  MBean.get_jmx_result self st = (Raised AssertionError, requested st)
  /\ is_ProgramException AssertionError = false.
Proof.
  intros Hget Hstatus. split; [|reflexivity].
  unfold MBean.get_jmx_result.
  rewrite (bind_returned _ _ _ _ _ (get_returns _ _ _ Hget)).
  apply Z.eqb_neq in Hstatus. rewrite Hstatus. reflexivity.
Qed.

Lemma unexpected_status_fails_assertion_witness :
  MBean.get_jmx_result
    (H := Scripted.world
            [Scripted.at_bean "foo:type=Bar"
               (GetReturns (mkResponse 503 (Raised (LibraryError "JSONDecodeError" ""))))])
    (Scripted.bean "foo:type=Bar") Scripted.start
  = (Raised AssertionError, mkState 1 [])
  /\ is_ProgramException AssertionError = false.
Proof.
  apply (unexpected_status_fails_assertion
           (H := Scripted.world
                   [Scripted.at_bean "foo:type=Bar"
                      (GetReturns
                         (mkResponse 503 (Raised (LibraryError "JSONDecodeError" ""))))])
           (Scripted.bean "foo:type=Bar") Scripted.start _ eq_refl).
  discriminate.
Defined.

(** *** Thresholds given as MBeans *)

Lemma resolve_ambiguous `{World} (which : string) (m : MBean.t)
    (result : list MBeanResult.t) (st st' : State) :
  MBean.get_jmx_result m st = (Returned result, st') ->
  List.length result <> 1%nat ->
  exists message,
    resolve_threshold which (Bean m) st
    = (Returned (inl (2, None)), printed message st').
Proof.
  intros Hget Hlen. unfold resolve_threshold.
  rewrite (bind_returned _ _ _ _ _ Hget).
  destruct result as [|r [|r' rest]].
  - eexists. reflexivity.
  - exfalso. apply Hlen. reflexivity.
  - eexists. reflexivity.
Qed.

(** C5. When the fetch made for a warning or critical threshold given as an
    MBean yields no sample or more than one, [validate_result] prints a
    message and returns severity CRITICAL (2) with no display value; it
    raises nothing. *)
Theorem ambiguous_threshold_is_critical `{World} (mbean m : MBean.t)
    (tw tc : Threshold) (compare : bool) (second : option MBean.t)
    (reverse : bool) (result : list MBeanResult.t) (st st1 st2 : State) :
  (tw = Bean m /\ st1 = st
   \/ tc = Bean m
      /\ exists w, resolve_threshold "Warning" tw st = (Returned (inr w), st1)) ->
  MBean.get_jmx_result m st1 = (Returned result, st2) ->
  List.length result <> 1%nat ->
  exists message,
    validate_result mbean tw tc compare second reverse st
    = (Returned (2, None), printed message st2).
Proof.
  intros [[-> ->]|[-> [w Hw]]] Hget Hlen.
  - destruct (resolve_ambiguous "Warning" _ _ _ _ Hget Hlen) as [message E].
    exists message. unfold validate_result.
    rewrite (bind_returned _ _ _ _ _ E). reflexivity.
  - destruct (resolve_ambiguous "Critical" _ _ _ _ Hget Hlen) as [message E].
    exists message. unfold validate_result.
    rewrite (bind_returned _ _ _ _ _ Hw).
    rewrite (bind_returned _ _ _ _ _ E). reflexivity.
Qed.

(** The example of C5: the critical threshold is a pattern that matches two
    beans; the warning threshold is a literal. *)
Lemma ambiguous_threshold_is_critical_witness :
  exists message,
    validate_result
      (H := Scripted.world
              [Scripted.at_bean "b" (Scripted.single "b" (PInt 1));
               Scripted.at_bean "limits:*"
                 (Scripted.pattern [("limits:n=1", PInt 10); ("limits:n=2", PInt 20)])])
      (Scripted.bean "b") (Literal (PInt 5)) (Bean (Scripted.bean "limits:*"))
      false None false Scripted.start
    = (Returned (2, None), printed message (mkState 1 [])).
Proof.
  apply (ambiguous_threshold_is_critical
           (H := Scripted.world
                   [Scripted.at_bean "b" (Scripted.single "b" (PInt 1));
                    Scripted.at_bean "limits:*"
                      (Scripted.pattern
                         [("limits:n=1", PInt 10); ("limits:n=2", PInt 20)])])
           (Scripted.bean "b") (Scripted.bean "limits:*")
           (Literal (PInt 5)) (Bean (Scripted.bean "limits:*")) false None false
           [MBeanResult.init (PStr "limits:n=1") (PDict [("Value", PInt 10)]);
            MBeanResult.init (PStr "limits:n=2") (PDict [("Value", PInt 20)])]
           Scripted.start Scripted.start (mkState 1 [])).
  - right. split; [reflexivity|]. exists (PInt 5). reflexivity.
  - reflexivity.
  - simpl. lia.
Defined.

(** *** The primary MBean *)

(** The value evaluated is taken from the first sample, whatever follows. *)
Lemma first_value_of_samples `{World} (m : MBean.t) (first : MBeanResult.t)
    (others : list MBeanResult.t) (st st' : State) :
  MBean.get_jmx_result m st = (Returned (first :: others), st') ->
  first_value m st
  = (MBeanResult.get_value_from_result first (MBean.attribute m) (MBean.key m), st').
Proof.
  intros Hget. unfold first_value.
  rewrite (bind_returned _ _ _ _ _ Hget). reflexivity.
Qed.

(** No sample at all: indexing the empty list raises [IndexError]. *)
Lemma first_value_without_sample `{World} (m : MBean.t) (st st' : State) :
  MBean.get_jmx_result m st = (Returned [], st') ->
  first_value m st = (Raised IndexError, st').
Proof.
  intros Hget. unfold first_value.
  rewrite (bind_returned _ _ _ _ _ Hget). reflexivity.
Qed.

(** C8 fails on the code. The primary MBean is a pattern that matches two
    beans, with values 5 and 100; the thresholds are 50 and 80. The fetch
    yields two samples, no error is produced, and the first sample alone is
    evaluated: the result is OK with display "5". *)
Theorem primary_with_two_samples_is_evaluated :
  MBean.get_jmx_result
    (H := Scripted.world
            [Scripted.at_bean "pool:*"
               (Scripted.pattern [("pool:n=1", PInt 5); ("pool:n=2", PInt 100)])])
    (Scripted.bean "pool:*") Scripted.start
  = (Returned [MBeanResult.init (PStr "pool:n=1") (PDict [("Value", PInt 5)]);
               MBeanResult.init (PStr "pool:n=2") (PDict [("Value", PInt 100)])],
     mkState 1 [])
  /\ validate_result
       (H := Scripted.world
               [Scripted.at_bean "pool:*"
                  (Scripted.pattern [("pool:n=1", PInt 5); ("pool:n=2", PInt 100)])])
       (Scripted.bean "pool:*") (Literal (PInt 50)) (Literal (PInt 80))
       false None false Scripted.start
     = (Returned (0, Some "5"), mkState 1 []).
Proof. split; vm_compute; reflexivity. Qed.

(** ** Further properties of the module *)

(** *** MBean.__init__ *)

Lemma last_char_append_slash (s : string) :
  MBean.last_char (s ++ "/") = Some "/"%char.
Proof.
  induction s as [|c s IH]; [reflexivity|].
  simpl. destruct (s ++ "/") eqn:E; [|exact IH].
  destruct s; discriminate.
Qed.

Lemma last_char_none (s : string) : MBean.last_char s = None -> s = "".
Proof.
  induction s as [|c s IH]; [reflexivity|].
  simpl. destruct s; [discriminate|]. intros E. specialize (IH E). discriminate.
Qed.

(** X1. A constructed [MBean] keeps the arguments it was given, except the
    context, which always ends with a slash: it is the given context itself
    when that ends with a slash, and the given context followed by one
    slash otherwise. *)
Theorem init_normalises_context (name attribute : string) (key : option string)
    (host : string) (port : Z) (context : string) (user pass : option string)
    (m : MBean.t) :
  MBean.init name attribute key host port context user pass = Returned m ->
  MBean.last_char (MBean.jolokia_context m) = Some "/"%char
  /\ (MBean.last_char context = Some "/"%char -> MBean.jolokia_context m = context)
  /\ (MBean.last_char context <> Some "/"%char ->
      MBean.jolokia_context m = context ++ "/")
  /\ MBean.mbean_name m = name /\ MBean.attribute m = attribute
  /\ MBean.key m = key /\ MBean.jolokia_host m = host
  /\ MBean.jolokia_port m = port
  /\ MBean.jolokia_user m = user /\ MBean.jolokia_pass m = pass.
Proof.
  unfold MBean.init. destruct (MBean.last_char context) as [c|] eqn:E; [|discriminate].
  intros [= <-]. simpl.
  destruct (c =? "/")%char eqn:Ec.
  - apply Ascii.eqb_eq in Ec. subst c.
    repeat split; auto. intros Hno. contradiction Hno. reflexivity.
  - apply Ascii.eqb_neq in Ec.
    repeat split; auto.
    + apply last_char_append_slash.
    + intros [= Hc]. contradiction.
Qed.

Lemma init_normalises_context_witness :
  MBean.init "java.lang:type=Memory" "HeapMemoryUsage" (Some "used")
    "localhost" 8778 "jolokia" None None
  = Returned
      {| MBean.mbean_name := "java.lang:type=Memory";
         MBean.attribute := "HeapMemoryUsage";
         MBean.key := Some "used";
         MBean.jolokia_host := "localhost";
         MBean.jolokia_port := 8778;
         MBean.jolokia_context := "jolokia/";
         MBean.jolokia_user := None;
         MBean.jolokia_pass := None |}
  /\ MBean.last_char "jolokia" <> Some "/"%char
  /\ "jolokia/" = "jolokia" ++ "/".
Proof.
  split; [reflexivity|]. split; [discriminate|].
  apply (init_normalises_context "java.lang:type=Memory" "HeapMemoryUsage"
           (Some "used") "localhost" 8778 "jolokia" None None
           {| MBean.mbean_name := "java.lang:type=Memory";
              MBean.attribute := "HeapMemoryUsage";
              MBean.key := Some "used";
              MBean.jolokia_host := "localhost";
              MBean.jolokia_port := 8778;
              MBean.jolokia_context := "jolokia/";
              MBean.jolokia_user := None;
              MBean.jolokia_pass := None |} eq_refl).
  discriminate.
Defined.

(** X2. The constructor fails exactly on the empty context, where
    [self._jolokia_context[-1]] raises [IndexError]. *)
Theorem init_fails_on_empty_context_only (name attribute : string)
    (key : option string) (host : string) (port : Z) (context : string)
    (user pass : option string) :
  MBean.init name attribute key host port context user pass = Raised IndexError
  <-> context = "".
Proof.
  unfold MBean.init. split.
  - destruct (MBean.last_char context) eqn:E; [discriminate|].
    intros _. apply last_char_none. exact E.
  - intros ->. reflexivity.
Qed.

(** X3. A context written without its trailing slash and the same context
    written with it give the same [MBean], hence the same request. *)
Theorem init_ignores_trailing_slash (name attribute : string)
    (key : option string) (host : string) (port : Z) (context : string)
    (user pass : option string) :
  context <> "" ->
  MBean.last_char context <> Some "/"%char ->
  MBean.init name attribute key host port context user pass
  = MBean.init name attribute key host port (context ++ "/") user pass.
Proof.
  intros Hne Hlast. unfold MBean.init.
  rewrite last_char_append_slash.
  destruct (MBean.last_char context) as [c|] eqn:E.
  - destruct (c =? "/")%char eqn:Ec.
    + apply Ascii.eqb_eq in Ec. subst c. contradiction.
    + reflexivity.
  - apply last_char_none in E. contradiction.
Qed.

Lemma init_ignores_trailing_slash_witness :
  MBean.init "java.lang:type=Memory" "Value" None "localhost" 8778 "jolokia" None None
  = MBean.init "java.lang:type=Memory" "Value" None "localhost" 8778 "jolokia/" None None.
Proof.
  apply (init_ignores_trailing_slash "java.lang:type=Memory" "Value" None
           "localhost" 8778 "jolokia" None None); discriminate.
Defined.

(** *** The request *)

(** X4. Credentials are sent only when both the user and the password are
    non-empty strings, and a timeout is set exactly when credentials are
    sent: a request without credentials has no timeout. *)
Theorem credentials_and_timeout_go_together (self : MBean.t) :
  (auth (MBean.request self) <> None
   <-> truthy (MBean.jolokia_user self) && truthy (MBean.jolokia_pass self) = true)
  /\ (timeout (MBean.request self) = None <-> auth (MBean.request self) = None).
Proof.
  unfold MBean.request.
  destruct (MBean.jolokia_user self) as [u|], (MBean.jolokia_pass self) as [p|];
    simpl; try (destruct (negb (u =? "")%string)); try (destruct (negb (p =? "")%string));
    simpl; repeat split; intros; try congruence; try discriminate.
Qed.

(** *** get_jmx_result *)

Lemma get_jmx_result_state `{World} (self : MBean.t) (st : State) :
  snd (MBean.get_jmx_result self st) = requested st.
Proof.
  unfold MBean.get_jmx_result, bind, MBean.get.
  destruct (requests_get (requests_made st) (MBean.request self))
    as [[msg|msg|name msg]|response]; try reflexivity.
  destruct (negb (status_code response =? 200)); [reflexivity|].
  unfold lift. destruct (json response) as [metrics|e]; [|reflexivity].
  destruct (py_contains "value" metrics) as [[|]|e]; reflexivity.
Qed.

(** X5. Whatever the agent answers, a call of [get_jmx_result] makes exactly
    one request and prints nothing. *)
Theorem get_jmx_result_makes_one_request `{World} (self : MBean.t) (st : State) :
  snd (MBean.get_jmx_result self st) = requested st.
Proof. exact (get_jmx_result_state self st). Qed.

(** X6. A connection error or a connect timeout of [requests.get] becomes a
    [JolokiaConnectionError] that carries the message of the cause. *)
Theorem connection_failure_is_reported `{World} (self : MBean.t) (st : State)
    (msg : string) :
  requests_get (requests_made st) (MBean.request self) = GetRaises (ConnectionError msg)
  \/ requests_get (requests_made st) (MBean.request self) = GetRaises (ConnectTimeout msg) ->
  MBean.get_jmx_result self st = (Raised (JolokiaConnectionError msg), requested st).
Proof.
  intros [E|E]; unfold MBean.get_jmx_result, bind, MBean.get; rewrite E; reflexivity.
Qed.

Lemma connection_failure_is_reported_witness :
  MBean.get_jmx_result (H := Scripted.world []) (Scripted.bean "b") Scripted.start
  = (Raised (JolokiaConnectionError "Connection refused"), mkState 1 []).
Proof.
  apply (connection_failure_is_reported (H := Scripted.world [])
           (Scripted.bean "b") Scripted.start "Connection refused").
  left. reflexivity.
Defined.

(** X7. Any other exception of [requests.get] (a read timeout, an invalid
    URL) is not caught: it goes through unchanged and is none of the two
    exceptions of the module. *)
Theorem other_request_failure_goes_through `{World} (self : MBean.t) (st : State)
    (name msg : string) :
  requests_get (requests_made st) (MBean.request self)
  = GetRaises (OtherRequestsException name msg) ->
  MBean.get_jmx_result self st = (Raised (LibraryError name msg), requested st)
  /\ is_ProgramException (LibraryError name msg) = false.
Proof.
  intros E. split; [|reflexivity].
  unfold MBean.get_jmx_result, bind, MBean.get. rewrite E. reflexivity.
Qed.

Lemma other_request_failure_goes_through_witness :
  MBean.get_jmx_result
    (H := Scripted.world
            [Scripted.at_bean "b"
               (GetRaises (OtherRequestsException "ReadTimeout" "Read timed out."))])
    (Scripted.bean "b") Scripted.start
  = (Raised (LibraryError "ReadTimeout" "Read timed out."), mkState 1 [])
  /\ is_ProgramException (LibraryError "ReadTimeout" "Read timed out.") = false.
Proof.
  apply (other_request_failure_goes_through
           (H := Scripted.world
                   [Scripted.at_bean "b"
                      (GetRaises (OtherRequestsException "ReadTimeout" "Read timed out."))])
           (Scripted.bean "b") Scripted.start "ReadTimeout" "Read timed out.").
  reflexivity.
Defined.

(** X8. On a 200 answer whose body cannot be decoded, the exception of
    [json.loads] goes through unchanged. *)
Theorem undecodable_body_goes_through `{World} (self : MBean.t) (st : State)
    (response : Response) (e : exn) :
  requests_get (requests_made st) (MBean.request self) = GetReturns response ->
  status_code response = 200 ->
  json response = Raised e ->
  MBean.get_jmx_result self st = (Raised e, requested st).
Proof.
  intros Hget Hstatus Hjson. unfold MBean.get_jmx_result.
  rewrite (bind_returned _ _ _ _ _ (get_returns _ _ _ Hget)).
  rewrite Hstatus. simpl. unfold bind, lift. rewrite Hjson. reflexivity.
Qed.

Lemma undecodable_body_goes_through_witness :
  MBean.get_jmx_result
    (H := Scripted.world
            [Scripted.at_bean "b"
               (GetReturns
                  (mkResponse 200
                     (Raised (LibraryError "JSONDecodeError" "Expecting value"))))])
    (Scripted.bean "b") Scripted.start
  = (Raised (LibraryError "JSONDecodeError" "Expecting value"), mkState 1 []).
Proof.
  apply (undecodable_body_goes_through
           (H := Scripted.world
                   [Scripted.at_bean "b"
                      (GetReturns
                         (mkResponse 200
                            (Raised (LibraryError "JSONDecodeError" "Expecting value"))))])
           (Scripted.bean "b") Scripted.start _ _ eq_refl eq_refl eq_refl).
Defined.

(** X9. Samples are returned only for a 200 answer whose document is an
    object with a ['value'] key and a ['request'] key holding an object; in
    every other case [get_jmx_result] raises. *)
Theorem samples_need_a_well_formed_answer `{World} (self : MBean.t) (st st' : State)
    (samples : list MBeanResult.t) :
  MBean.get_jmx_result self st = (Returned samples, st') ->
  exists response document request value,
    requests_get (requests_made st) (MBean.request self) = GetReturns response
    /\ status_code response = 200
    /\ json response = Returned (PDict document)
    /\ dict_get "value" document = Some value
    /\ dict_get "request" document = Some (PDict request).
Proof.
  unfold MBean.get_jmx_result, bind, MBean.get.
  destruct (requests_get (requests_made st) (MBean.request self))
    as [[msg|msg|name msg]|response] eqn:Hget; try discriminate.
  destruct (status_code response =? 200) eqn:Hstatus; simpl; [|discriminate].
  apply Z.eqb_eq in Hstatus.
  unfold lift. destruct (json response) as [metrics|e] eqn:Hjson; [|discriminate].
  destruct (py_contains "value" metrics) as [[|]|e] eqn:Hin; simpl; try discriminate.
  unfold MBean.metric_list.
  destruct metrics as [| | | | |l|document]; simpl; try discriminate.
  destruct (dict_get "request" document) as [request|] eqn:Hrequest; simpl;
    [|discriminate].
  destruct request as [| | | | |l|request]; simpl; try discriminate.
  simpl in Hin. unfold dict_has in Hin.
  destruct (dict_get "value" document) as [value|] eqn:Hvalue; [|discriminate].
  intros _. exists response, document, request, value. auto.
Qed.

Lemma samples_need_a_well_formed_answer_witness :
  exists response document request value,
    requests_get (World := Scripted.world
                   [Scripted.at_bean "b" (Scripted.single "b" (PInt 1))])
      0%nat (MBean.request (Scripted.bean "b")) = GetReturns response
    /\ status_code response = 200
    /\ json response = Returned (PDict document)
    /\ dict_get "value" document = Some value
    /\ dict_get "request" document = Some (PDict request).
Proof.
  apply (samples_need_a_well_formed_answer
           (H := Scripted.world [Scripted.at_bean "b" (Scripted.single "b" (PInt 1))])
           (Scripted.bean "b") Scripted.start (mkState 1 [])
           [MBeanResult.init (PStr "b") (PDict [("Value", PInt 1)])]).
  reflexivity.
Defined.

(** X10. On a 200 answer whose document has a ['value'] key but no
    ['request'] key, [metrics['request']] raises [KeyError]. *)
Theorem missing_request_raises_KeyError `{World} (self : MBean.t) (st : State)
    (response : Response) (document : list (string * pyval)) (value : pyval) :
  requests_get (requests_made st) (MBean.request self) = GetReturns response ->
  status_code response = 200 ->
  json response = Returned (PDict document) ->
  dict_get "value" document = Some value ->
  dict_get "request" document = None ->
  MBean.get_jmx_result self st = (Raised (KeyError "request"), requested st).
Proof.
  intros Hget Hstatus Hjson Hvalue Hrequest. unfold MBean.get_jmx_result.
  rewrite (bind_returned _ _ _ _ _ (get_returns _ _ _ Hget)).
  rewrite Hstatus. simpl. unfold bind, lift. rewrite Hjson. simpl.
  unfold dict_has. rewrite Hvalue. simpl.
  unfold MBean.metric_list. simpl. rewrite Hrequest. reflexivity.
Qed.

Lemma missing_request_raises_KeyError_witness :
  MBean.get_jmx_result
    (H := Scripted.world
            [Scripted.at_bean "b"
               (GetReturns (mkResponse 200 (Returned (PDict [("value", PInt 7)]))))])
    (Scripted.bean "b") Scripted.start
  = (Raised (KeyError "request"), mkState 1 []).
Proof.
  apply (missing_request_raises_KeyError
           (H := Scripted.world
                   [Scripted.at_bean "b"
                      (GetReturns (mkResponse 200 (Returned (PDict [("value", PInt 7)]))))])
           (Scripted.bean "b") Scripted.start _ _ (PInt 7)
           eq_refl eq_refl eq_refl eq_refl eq_refl).
Defined.

(** X11. On a 200 answer whose document is not a container ([null], a
    boolean or a number), the test ['value' not in metrics] raises
    [TypeError], which is none of the two exceptions of the module. *)
Theorem scalar_document_raises_TypeError `{World} (self : MBean.t) (st : State)
    (response : Response) (metrics : pyval) :
  requests_get (requests_made st) (MBean.request self) = GetReturns response ->
  status_code response = 200 ->
  json response = Returned metrics ->
  (metrics = PNone \/ (exists b, metrics = PBool b)
   \/ (exists z, metrics = PInt z) \/ (exists f, metrics = PFloat f)) ->
  MBean.get_jmx_result self st = (Raised TypeError, requested st)
  /\ is_ProgramException TypeError = false.
Proof.
  intros Hget Hstatus Hjson Hscalar. split; [|reflexivity].
  unfold MBean.get_jmx_result.
  rewrite (bind_returned _ _ _ _ _ (get_returns _ _ _ Hget)).
  rewrite Hstatus. simpl. unfold bind, lift. rewrite Hjson.
  destruct Hscalar as [->|[[b ->]|[[z ->]|[f ->]]]]; reflexivity.
Qed.

Lemma scalar_document_raises_TypeError_witness :
  MBean.get_jmx_result
    (H := Scripted.world
            [Scripted.at_bean "b" (GetReturns (mkResponse 200 (Returned (PInt 5))))])
    (Scripted.bean "b") Scripted.start
  = (Raised TypeError, mkState 1 [])
  /\ is_ProgramException TypeError = false.
Proof.
  apply (scalar_document_raises_TypeError
           (H := Scripted.world
                   [Scripted.at_bean "b" (GetReturns (mkResponse 200 (Returned (PInt 5))))])
           (Scripted.bean "b") Scripted.start _ (PInt 5) eq_refl eq_refl eq_refl).
  right. right. left. exists 5. reflexivity.
Defined.

(** *** MBeanResult.get_value_from_result *)

(** X12. Without a key, the value is the attribute itself, whatever it is;
    an empty key is no key. *)
Theorem no_key_gives_the_attribute (self : MBeanResult.t)
    (items : list (string * pyval)) (mbean_attribute : string)
    (mbean_key : option string) (a : pyval) :
  MBeanResult.content self = PDict items ->
  dict_get mbean_attribute items = Some a ->
  mbean_key = None \/ mbean_key = Some "" ->
  MBeanResult.get_value_from_result self mbean_attribute mbean_key = Returned a.
Proof.
  intros Hc Ha [->| ->]; unfold MBeanResult.get_value_from_result, py_getitem;
    simpl; rewrite Hc, Ha; reflexivity.
Qed.

Lemma no_key_gives_the_attribute_witness :
  MBeanResult.get_value_from_result
    (MBeanResult.init (PStr "java.lang:type=Memory")
       (PDict [("HeapMemoryUsage", PDict [("used", PInt 10)])]))
    "HeapMemoryUsage" (Some "")
  = Returned (PDict [("used", PInt 10)]).
Proof.
  apply (no_key_gives_the_attribute
           (MBeanResult.init (PStr "java.lang:type=Memory")
              (PDict [("HeapMemoryUsage", PDict [("used", PInt 10)])]))
           [("HeapMemoryUsage", PDict [("used", PInt 10)])]
           "HeapMemoryUsage" (Some "") (PDict [("used", PInt 10)]));
    [reflexivity | reflexivity | right; reflexivity].
Defined.

(** X13. When the content is an object that lacks the attribute, the lookup
    raises [KeyError] for the attribute, with or without a key. *)
Theorem missing_attribute_raises_KeyError (self : MBeanResult.t)
    (items : list (string * pyval)) (mbean_attribute : string)
    (mbean_key : option string) :
  MBeanResult.content self = PDict items ->
  dict_get mbean_attribute items = None ->
  MBeanResult.get_value_from_result self mbean_attribute mbean_key
  = Raised (KeyError mbean_attribute).
Proof.
  intros Hc Ha. unfold MBeanResult.get_value_from_result, py_getitem.
  rewrite Hc, Ha.
  destruct mbean_key as [k|]; [|reflexivity].
  destruct (truthy (Some k)); reflexivity.
Qed.

Lemma missing_attribute_raises_KeyError_witness :
  MBeanResult.get_value_from_result
    (MBeanResult.init (PStr "java.lang:type=Memory")
       (PDict [("HeapMemoryUsage", PDict [("used", PInt 10)])]))
    "Value" (Some "used")
  = Raised (KeyError "Value").
Proof.
  apply (missing_attribute_raises_KeyError
           (MBeanResult.init (PStr "java.lang:type=Memory")
              (PDict [("HeapMemoryUsage", PDict [("used", PInt 10)])]))
           [("HeapMemoryUsage", PDict [("used", PInt 10)])] "Value" (Some "used"));
    reflexivity.
Defined.

(** X14. With a non-empty key, the value is found in two steps: the
    attribute in the content, then the key in the attribute; when the
    attribute is not an object (a number, a string), the second step raises
    [TypeError]. *)
Theorem key_selects_inside_attribute (self : MBeanResult.t)
    (items : list (string * pyval)) (mbean_attribute k : string) (a : pyval) :
  MBeanResult.content self = PDict items ->
  dict_get mbean_attribute items = Some a ->
  k <> "" ->
  MBeanResult.get_value_from_result self mbean_attribute (Some k)
  = match a with
    | PDict inner =>
        match dict_get k inner with
        | Some v => Returned v
        | None => Raised (KeyError k)
        end
    | _ => Raised TypeError
    end.
Proof.
  intros Hc Ha Hk. unfold MBeanResult.get_value_from_result, py_getitem.
  rewrite Hc, Ha. simpl.
  destruct (k =? "")%string eqn:E.
  - apply String.eqb_eq in E. contradiction.
  - simpl. destruct a; reflexivity.
Qed.

Lemma key_selects_inside_attribute_witness :
  MBeanResult.get_value_from_result
    (MBeanResult.init (PStr "java.lang:type=Memory")
       (PDict [("HeapMemoryUsage", PDict [("max", PInt 100); ("used", PInt 10)])]))
    "HeapMemoryUsage" (Some "used")
  = Returned (PInt 10).
Proof.
  apply (key_selects_inside_attribute
           (MBeanResult.init (PStr "java.lang:type=Memory")
              (PDict [("HeapMemoryUsage", PDict [("max", PInt 100); ("used", PInt 10)])]))
           [("HeapMemoryUsage", PDict [("max", PInt 100); ("used", PInt 10)])]
           "HeapMemoryUsage" "used"
           (PDict [("max", PInt 100); ("used", PInt 10)]));
    [reflexivity | reflexivity | discriminate].
Defined.

(** *** The effects of validate_result *)

Lemma first_value_state `{World} (m : MBean.t) (st : State) :
  snd (first_value m st) = requested st.
Proof.
  unfold first_value, bind, lift.
  pose proof (get_jmx_result_state m st) as E.
  destruct (MBean.get_jmx_result m st) as [[result|e] st']; simpl in E; subst st';
    [|reflexivity].
  destruct (py_first result); reflexivity.
Qed.

Lemma resolve_threshold_cases `{World} (which : string) (thresh : Threshold)
    (st st' : State) (r : (Z * option string) + pyval) :
  resolve_threshold which thresh st = (Returned r, st') ->
  match r with
  | inl early =>
      early = (2, None) /\ requests_made st' = S (requests_made st)
  | inr _ =>
      requests_made st' = (requests_made st + threshold_fetches thresh)%nat
      /\ stdout st' = stdout st
  end.
Proof.
  destruct thresh as [v|m]; simpl.
  - intros [= <- <-]. split; [lia|reflexivity].
  - unfold bind. pose proof (get_jmx_result_state m st) as E.
    destruct (MBean.get_jmx_result m st) as [[result|e] st1]; simpl in E; subst st1;
      [|discriminate].
    destruct result as [|first [|second rest]]; simpl.
    + intros [= <- <-]. split; reflexivity.
    + unfold lift. destruct (MBeanResult.get_value_from_result _ _ _); [|discriminate].
      intros [= <- <-]. simpl. split; [lia|reflexivity].
    + intros [= <- <-]. split; reflexivity.
Qed.

Lemma as_percentage_state `{World} (v : pyval) (second : option MBean.t)
    (st st' : State) (r : pyval * option string) :
  as_percentage v second st = (Returned r, st') ->
  requests_made st' = (requests_made st + second_fetches second)%nat
  /\ stdout st' = stdout st.
Proof.
  destruct second as [m|]; simpl.
  - unfold bind. pose proof (first_value_state m st) as E.
    destruct (first_value m st) as [[s|e] st1]; simpl in E; subst st1; [|discriminate].
    unfold lift. destruct (py_truediv v s); [|discriminate].
    destruct (py_round _); [|discriminate].
    intros [= <- <-]. simpl. split; [lia|reflexivity].
  - intros [= <- <-]. split; [lia|reflexivity].
Qed.

Lemma classify_codes `{World} (compare reverse : bool) (v w c : pyval) (code : Z) :
  classify compare reverse v w c = Returned code ->
  code = 0 \/ code = 1 \/ code = 2.
Proof.
  unfold classify.
  destruct (threshold_reached compare reverse v c) as [[|]|e]; simpl;
    [intros [= <-]; auto | | discriminate].
  destruct (threshold_reached compare reverse v w) as [[|]|e]; simpl;
    [intros [= <-]; auto | intros [= <-]; auto | discriminate].
Qed.

(** What a completed evaluation is made of. *)
Lemma validate_result_returns `{World} (mbean : MBean.t) (tw tc : Threshold)
    (compare : bool) (second : option MBean.t) (reverse : bool)
    (st st' : State) (code : Z) (shown : option string) :
  validate_result mbean tw tc compare second reverse st = (Returned (code, shown), st') ->
  (shown = None /\ code = 2
   /\ (1 <= requests_made st' - requests_made st <= 2)%nat)
  \/ (exists w c v0 v factors st1 st2 st3,
         resolve_threshold "Warning" tw st = (Returned (inr w), st1)
         /\ resolve_threshold "Critical" tc st1 = (Returned (inr c), st2)
         /\ first_value mbean st2 = (Returned v0, st3)
         /\ as_percentage v0 second st3 = (Returned (v, factors), st')
         /\ classify compare reverse v w c = Returned code
         /\ shown = Some (display v factors)).
Proof.
  unfold validate_result. unfold bind at 1.
  destruct (resolve_threshold "Warning" tw st) as [[rw|e] st1] eqn:Hw; [|discriminate].
  pose proof (resolve_threshold_cases _ _ _ _ _ Hw) as Sw.
  destruct rw as [early|w].
  { destruct Sw as [-> Sw]. intros [= <- <- <-]. left. repeat split; lia. }
  unfold bind at 1.
  destruct (resolve_threshold "Critical" tc st1) as [[rc|e] st2] eqn:Hc; [|discriminate].
  pose proof (resolve_threshold_cases _ _ _ _ _ Hc) as Sc.
  destruct rc as [early|c].
  { destruct Sc as [-> Sc]. intros [= <- <- <-]. left.
    destruct Sw as [Sw _]. destruct tw; simpl in Sw; repeat split; lia. }
  unfold bind at 1.
  destruct (first_value mbean st2) as [[v0|e] st3] eqn:Hv; [|discriminate].
  unfold bind at 1.
  destruct (as_percentage v0 second st3) as [[[v factors]|e] st4] eqn:Hp; [|discriminate].
  unfold bind, lift, ret.
  destruct (classify compare reverse v w c) as [code'|e] eqn:Hk; [|discriminate].
  intros [= <- <- <-]. right.
  exists w, c, v0, v, factors, st1, st2, st3.
  repeat (split; [assumption || reflexivity|]). reflexivity.
Qed.

(** X15. The severity returned is always 0, 1 or 2, and a result without a
    display value is always CRITICAL. *)
Theorem severity_is_a_status_code `{World} (mbean : MBean.t) (tw tc : Threshold)
    (compare : bool) (second : option MBean.t) (reverse : bool)
    (st st' : State) (code : Z) (shown : option string) :
  validate_result mbean tw tc compare second reverse st = (Returned (code, shown), st') ->
  (code = 0 \/ code = 1 \/ code = 2) /\ (shown = None -> code = 2).
Proof.
  intros E. destruct (validate_result_returns _ _ _ _ _ _ _ _ _ _ E)
    as [(-> & -> & _)|(w & c & v0 & v & factors & st1 & st2 & st3 & _ & _ & _ & _ & Hk & ->)].
  - auto.
  - split; [exact (classify_codes _ _ _ _ _ _ Hk)|discriminate].
Qed.

Lemma severity_is_a_status_code_witness :
  validate_result
    (H := Scripted.world [Scripted.at_bean "b" (Scripted.single "b" (PInt 15))])
    (Scripted.bean "b") (Literal (PInt 10)) (Literal (PInt 20)) false None false
    Scripted.start
  = (Returned (1, Some "15"), mkState 1 [])
  /\ (1 = 0 \/ 1 = 1 \/ 1 = 2) /\ (Some "15" = None -> 1 = 2).
Proof.
  split; [reflexivity|].
  apply (severity_is_a_status_code
           (H := Scripted.world [Scripted.at_bean "b" (Scripted.single "b" (PInt 15))])
           (Scripted.bean "b") (Literal (PInt 10)) (Literal (PInt 20)) false None false
           Scripted.start (mkState 1 [])).
  reflexivity.
Defined.

(** X16. An evaluation that returns a display value has made one request
    for each threshold given as an MBean, one for the primary MBean and one
    for the second MBean if there is one, and has printed nothing. *)
Theorem completed_evaluation_effects `{World} (mbean : MBean.t) (tw tc : Threshold)
    (compare : bool) (second : option MBean.t) (reverse : bool)
    (st st' : State) (code : Z) (shown : string) :
  validate_result mbean tw tc compare second reverse st
  = (Returned (code, Some shown), st') ->
  requests_made st'
  = (requests_made st + threshold_fetches tw + threshold_fetches tc + 1
     + second_fetches second)%nat
  /\ stdout st' = stdout st.
Proof.
  intros E. destruct (validate_result_returns _ _ _ _ _ _ _ _ _ _ E)
    as [(Hnone & _)|(w & c & v0 & v & factors & st1 & st2 & st3 & Hw & Hc & Hv & Hp & _ & _)].
  - discriminate.
  - destruct (resolve_threshold_cases _ _ _ _ _ Hw) as [Rw Ow].
    destruct (resolve_threshold_cases _ _ _ _ _ Hc) as [Rc Oc].
    pose proof (first_value_state mbean st2) as Sv. rewrite Hv in Sv. simpl in Sv.
    destruct (as_percentage_state _ _ _ _ _ Hp) as [Rp Op].
    subst st3. simpl in *. split; [lia|congruence].
Qed.

Lemma completed_evaluation_effects_witness :
  validate_result
    (H := Scripted.world [Scripted.at_bean "used" (Scripted.single "used" (PInt 50));
                          Scripted.at_bean "max" (Scripted.single "max" (PInt 200))])
    (Scripted.bean "used") (Literal (PInt 25)) (Literal (PInt 30)) false
    (Some (Scripted.bean "max")) false Scripted.start
  = (Returned (1, Some "25% (50/200)"), mkState 2 [])
  /\ requests_made (mkState 2 [])
  = (requests_made Scripted.start + threshold_fetches (Literal (PInt 25))
     + threshold_fetches (Literal (PInt 30)) + 1
     + second_fetches (Some (Scripted.bean "max")))%nat
  /\ stdout (mkState 2 []) = stdout Scripted.start.
Proof.
  split; [reflexivity|].
  apply (completed_evaluation_effects
           (H := Scripted.world
                   [Scripted.at_bean "used" (Scripted.single "used" (PInt 50));
                    Scripted.at_bean "max" (Scripted.single "max" (PInt 200))])
           (Scripted.bean "used") (Literal (PInt 25)) (Literal (PInt 30)) false
           (Some (Scripted.bean "max")) false Scripted.start (mkState 2 [])
           1 "25% (50/200)").
  reflexivity.
Defined.

(** X17. Between a critical condition that is reached and a severity of
    WARNING there is no overlap, in every mode and for thresholds of every
    kind: when the severity returned is 1, the critical condition is false
    and the warning condition is true on the thresholds this run resolved
    and on the value it fetched (its percentage, with a second MBean),
    which is the value displayed. *)
Theorem warning_means_critical_not_reached `{World} (mbean : MBean.t)
    (tw tc : Threshold) (compare : bool) (second : option MBean.t) (reverse : bool)
    (w c v0 v : pyval) (factors : option string)
    (st st1 st2 st3 st4 st' : State) (shown : option string) :
  resolve_threshold "Warning" tw st = (Returned (inr w), st1) ->
  resolve_threshold "Critical" tc st1 = (Returned (inr c), st2) ->
  first_value mbean st2 = (Returned v0, st3) ->
  as_percentage v0 second st3 = (Returned (v, factors), st4) ->
  validate_result mbean tw tc compare second reverse st = (Returned (1, shown), st') ->
  threshold_reached compare reverse v c = Returned false
  /\ threshold_reached compare reverse v w = Returned true
  /\ shown = Some (display v factors)
  /\ st' = st4.
Proof.
  intros Hw Hc Hv Hp E.
  rewrite (validate_result_phases _ _ _ _ _ _ _ _ _ _ _ _ _ _ _ _ Hw Hc Hv Hp) in E.
  unfold classify in E.
  destruct (threshold_reached compare reverse v c) as [[|]|e]; simpl in E;
    try discriminate.
  destruct (threshold_reached compare reverse v w) as [[|]|e]; simpl in E;
    try discriminate.
  injection E as <- <-. auto.
Qed.

Lemma warning_means_critical_not_reached_witness :
  validate_result
    (H := Scripted.world [Scripted.at_bean "b" (Scripted.single "b" (PInt 15))])
    (Scripted.bean "b") (Literal (PInt 10)) (Literal (PInt 20)) false None false
    Scripted.start
  = (Returned (1, Some "15"), mkState 1 [])
  /\ threshold_reached
       (H := Scripted.world [Scripted.at_bean "b" (Scripted.single "b" (PInt 15))])
       false false (PInt 15) (PInt 20) = Returned false
  /\ threshold_reached
       (H := Scripted.world [Scripted.at_bean "b" (Scripted.single "b" (PInt 15))])
       false false (PInt 15) (PInt 10) = Returned true.
Proof.
  split; [reflexivity|].
  pose proof
    (warning_means_critical_not_reached
       (H := Scripted.world [Scripted.at_bean "b" (Scripted.single "b" (PInt 15))])
       (Scripted.bean "b") (Literal (PInt 10)) (Literal (PInt 20)) false None false
       (PInt 10) (PInt 20) (PInt 15) (PInt 15) None
       Scripted.start Scripted.start Scripted.start (mkState 1 []) (mkState 1 [])
       (mkState 1 []) (Some "15")
       eq_refl eq_refl eq_refl eq_refl eq_refl) as [Hc [Hw _]].
  split; assumption.
Defined.

(** X18. When the warning and the critical thresholds resolve to the same
    value, as in the usage example of the module, the severity is never
    WARNING: the two conditions are the same. *)
Theorem equal_thresholds_never_warn `{World} (mbean : MBean.t)
    (tw tc : Threshold) (compare : bool) (second : option MBean.t) (reverse : bool)
    (t : pyval) (st st1 st2 st' : State) (code : Z) (shown : option string) :
  resolve_threshold "Warning" tw st = (Returned (inr t), st1) ->
  resolve_threshold "Critical" tc st1 = (Returned (inr t), st2) ->
  validate_result mbean tw tc compare second reverse st = (Returned (code, shown), st') ->
  code = 0 \/ code = 2.
Proof.
  intros Hw Hc E. destruct (validate_result_returns _ _ _ _ _ _ _ _ _ _ E)
    as [(_ & -> & _)|(w & c & v0 & v & factors & s1 & s2 & s3 & Hw' & Hc' & _ & _ & Hk & _)].
  - auto.
  - rewrite Hw in Hw'. injection Hw' as <- <-.
    rewrite Hc in Hc'. injection Hc' as <- <-.
    unfold classify in Hk.
    destruct (threshold_reached compare reverse v t) as [[|]|e]; simpl in Hk;
      [injection Hk as <-; auto | injection Hk as <-; auto | discriminate].
Qed.

Lemma equal_thresholds_never_warn_witness :
  validate_result
    (H := Scripted.world [Scripted.at_bean "b" (Scripted.single "b" (PInt 1))])
    (Scripted.bean "b") (Literal (PInt 1)) (Literal (PInt 1)) false None false
    Scripted.start
  = (Returned (2, Some "1"), mkState 1 [])
  /\ (2 = 0 \/ 2 = 2).
Proof.
  split; [reflexivity|].
  apply (equal_thresholds_never_warn
           (H := Scripted.world [Scripted.at_bean "b" (Scripted.single "b" (PInt 1))])
           (Scripted.bean "b") (Literal (PInt 1)) (Literal (PInt 1)) false None false
           (PInt 1) Scripted.start Scripted.start Scripted.start (mkState 1 [])
           2 (Some "1")); reflexivity.
Defined.

(** *** Exceptions that go through validate_result *)

Lemma resolve_threshold_raises `{World} (which : string) (m : MBean.t)
    (st st' : State) (e : exn) :
  MBean.get_jmx_result m st = (Raised e, st') ->
  resolve_threshold which (Bean m) st = (Raised e, st').
Proof. intros E. unfold resolve_threshold. apply bind_raised. exact E. Qed.

(** X19. Only an ambiguous answer degrades to CRITICAL: when the fetch made
    for a threshold given as an MBean raises (the agent cannot be reached,
    the answer is invalid), [validate_result] raises the same exception. *)
Theorem threshold_fetch_failure_goes_through `{World} (mbean m : MBean.t)
    (tw tc : Threshold) (compare : bool) (second : option MBean.t)
    (reverse : bool) (e : exn) (st st1 st2 : State) :
  (tw = Bean m /\ st1 = st
   \/ tc = Bean m
      /\ exists w, resolve_threshold "Warning" tw st = (Returned (inr w), st1)) ->
  MBean.get_jmx_result m st1 = (Raised e, st2) ->
  validate_result mbean tw tc compare second reverse st = (Raised e, st2).
Proof.
  intros [[-> ->]|[-> [w Hw]]] Hget; unfold validate_result.
  - apply bind_raised. apply resolve_threshold_raises. exact Hget.
  - rewrite (bind_returned _ _ _ _ _ Hw).
    apply bind_raised. apply resolve_threshold_raises. exact Hget.
Qed.

Lemma threshold_fetch_failure_goes_through_witness :
  validate_result
    (H := Scripted.world [Scripted.at_bean "b" (Scripted.single "b" (PInt 1))])
    (Scripted.bean "b") (Bean (Scripted.bean "limit")) (Literal (PInt 5))
    false None false Scripted.start
  = (Raised (JolokiaConnectionError "Connection refused"), mkState 1 []).
Proof.
  apply (threshold_fetch_failure_goes_through
           (H := Scripted.world [Scripted.at_bean "b" (Scripted.single "b" (PInt 1))])
           (Scripted.bean "b") (Scripted.bean "limit")
           (Bean (Scripted.bean "limit")) (Literal (PInt 5)) false None false
           (JolokiaConnectionError "Connection refused")
           Scripted.start Scripted.start (mkState 1 [])).
  - left. split; reflexivity.
  - reflexivity.
Defined.

(** X20. A warning threshold given as an MBean whose fetch yields exactly
    one sample stands for the value extracted from that sample: the
    evaluation continues as with that literal, from the state after the
    fetch. *)
Theorem bean_threshold_stands_for_its_value `{World} (mbean m : MBean.t)
    (tc : Threshold) (compare : bool) (second : option MBean.t) (reverse : bool)
    (sample : MBeanResult.t) (v : pyval) (st st1 : State) :
  MBean.get_jmx_result m st = (Returned [sample], st1) ->
  MBeanResult.get_value_from_result sample (MBean.attribute m) (MBean.key m)
  = Returned v ->
  validate_result mbean (Bean m) tc compare second reverse st
  = validate_result mbean (Literal v) tc compare second reverse st1.
Proof.
  intros Hget Hv. unfold validate_result.
  assert (E : resolve_threshold "Warning" (Bean m) st = (Returned (inr v), st1)).
  { unfold resolve_threshold. rewrite (bind_returned _ _ _ _ _ Hget). simpl.
    unfold bind, lift. rewrite Hv. reflexivity. }
  rewrite (bind_returned _ _ _ _ _ E).
  rewrite (bind_returned _ _ _ _ _ (resolve_literal "Warning" v st1)).
  reflexivity.
Qed.

Lemma bean_threshold_stands_for_its_value_witness :
  validate_result
    (H := Scripted.world [Scripted.at_bean "b" (Scripted.single "b" (PInt 15));
                          Scripted.at_bean "limit" (Scripted.single "limit" (PInt 10))])
    (Scripted.bean "b") (Bean (Scripted.bean "limit")) (Literal (PInt 20))
    false None false Scripted.start
  = validate_result
      (H := Scripted.world [Scripted.at_bean "b" (Scripted.single "b" (PInt 15));
                            Scripted.at_bean "limit" (Scripted.single "limit" (PInt 10))])
      (Scripted.bean "b") (Literal (PInt 10)) (Literal (PInt 20))
      false None false (mkState 1 []).
Proof.
  apply (bean_threshold_stands_for_its_value
           (H := Scripted.world
                   [Scripted.at_bean "b" (Scripted.single "b" (PInt 15));
                    Scripted.at_bean "limit" (Scripted.single "limit" (PInt 10))])
           (Scripted.bean "b") (Scripted.bean "limit") (Literal (PInt 20))
           false None false
           (MBeanResult.init (PStr "limit") (PDict [("Value", PInt 10)]))
           (PInt 10) Scripted.start (mkState 1 []));
    reflexivity.
Defined.

(** X21. When the fetch of the primary MBean yields no sample (a pattern
    that matches nothing), indexing the empty list raises [IndexError]. *)
Theorem primary_without_sample_raises_IndexError `{World} (mbean : MBean.t)
    (tw tc : Threshold) (compare : bool) (second : option MBean.t) (reverse : bool)
    (w c : pyval) (st st1 st2 st3 : State) :
  resolve_threshold "Warning" tw st = (Returned (inr w), st1) ->
  resolve_threshold "Critical" tc st1 = (Returned (inr c), st2) ->
  MBean.get_jmx_result mbean st2 = (Returned [], st3) ->
  validate_result mbean tw tc compare second reverse st = (Raised IndexError, st3).
Proof.
  intros Hw Hc Hget. unfold validate_result.
  rewrite (bind_returned _ _ _ _ _ Hw).
  rewrite (bind_returned _ _ _ _ _ Hc).
  apply bind_raised. unfold first_value.
  rewrite (bind_returned _ _ _ _ _ Hget). reflexivity.
Qed.

Lemma primary_without_sample_raises_IndexError_witness :
  validate_result
    (H := Scripted.world [Scripted.at_bean "pool:*" (Scripted.pattern [])])
    (Scripted.bean "pool:*") (Literal (PInt 50)) (Literal (PInt 80))
    false None false Scripted.start
  = (Raised IndexError, mkState 1 []).
Proof.
  apply (primary_without_sample_raises_IndexError
           (H := Scripted.world [Scripted.at_bean "pool:*" (Scripted.pattern [])])
           (Scripted.bean "pool:*") (Literal (PInt 50)) (Literal (PInt 80))
           false None false (PInt 50) (PInt 80)
           Scripted.start Scripted.start Scripted.start (mkState 1 []));
    reflexivity.
Defined.

(** X22. When the sample of the primary MBean lacks the attribute asked
    for, the evaluation raises [KeyError] for that attribute. *)
Theorem primary_without_attribute_raises_KeyError `{World} (mbean : MBean.t)
    (tw tc : Threshold) (compare : bool) (second : option MBean.t) (reverse : bool)
    (w c : pyval) (sample : MBeanResult.t) (others : list MBeanResult.t)
    (items : list (string * pyval)) (st st1 st2 st3 : State) :
  resolve_threshold "Warning" tw st = (Returned (inr w), st1) ->
  resolve_threshold "Critical" tc st1 = (Returned (inr c), st2) ->
  MBean.get_jmx_result mbean st2 = (Returned (sample :: others), st3) ->
  MBeanResult.content sample = PDict items ->
  dict_get (MBean.attribute mbean) items = None ->
  validate_result mbean tw tc compare second reverse st
  = (Raised (KeyError (MBean.attribute mbean)), st3).
Proof.
  intros Hw Hc Hget Hcontent Hmissing. unfold validate_result.
  rewrite (bind_returned _ _ _ _ _ Hw).
  rewrite (bind_returned _ _ _ _ _ Hc).
  apply bind_raised. unfold first_value.
  rewrite (bind_returned _ _ _ _ _ Hget). simpl. unfold bind, lift.
  unfold MBeanResult.get_value_from_result, py_getitem.
  rewrite Hcontent, Hmissing.
  destruct (MBean.key mbean) as [k|]; [|reflexivity].
  destruct (truthy (Some k)); reflexivity.
Qed.

Lemma primary_without_attribute_raises_KeyError_witness :
  validate_result
    (H := Scripted.world
            [Scripted.at_bean "b"
               (GetReturns
                  (mkResponse 200
                     (Returned
                        (PDict [("request", PDict [("mbean", PStr "b")]);
                                ("value", PDict [("Count", PInt 3)])]))))])
    (Scripted.bean "b") (Literal (PInt 50)) (Literal (PInt 80))
    false None false Scripted.start
  = (Raised (KeyError "Value"), mkState 1 []).
Proof.
  apply (primary_without_attribute_raises_KeyError
           (H := Scripted.world
                   [Scripted.at_bean "b"
                      (GetReturns
                         (mkResponse 200
                            (Returned
                               (PDict [("request", PDict [("mbean", PStr "b")]);
                                       ("value", PDict [("Count", PInt 3)])]))))])
           (Scripted.bean "b") (Literal (PInt 50)) (Literal (PInt 80))
           false None false (PInt 50) (PInt 80)
           (MBeanResult.init (PStr "b") (PDict [("Count", PInt 3)])) []
           [("Count", PInt 3)]
           Scripted.start Scripted.start Scripted.start (mkState 1 []));
    reflexivity.
Defined.

(** X23. In range mode a value that is not a number (a string, [None], a
    list, an object) cannot be compared with the converted threshold: the
    evaluation raises [TypeError]. *)
Theorem range_mode_needs_a_number `{World} (mbean : MBean.t) (tw tc : Threshold)
    (second : option MBean.t) (reverse : bool) (w c v0 v : pyval)
    (factors : option string) (fc : spec_float) (st st1 st2 st3 st4 : State) :
  resolve_threshold "Warning" tw st = (Returned (inr w), st1) ->
  resolve_threshold "Critical" tc st1 = (Returned (inr c), st2) ->
  first_value mbean st2 = (Returned v0, st3) ->
  as_percentage v0 second st3 = (Returned (v, factors), st4) ->
  py_float c = Returned fc ->
  as_number v = None ->
  validate_result mbean tw tc false second reverse st = (Raised TypeError, st4).
Proof.
  intros Hw Hc Hv Hp Hf Hn.
  rewrite (validate_result_phases _ _ _ _ _ _ _ _ _ _ _ _ _ _ _ _ Hw Hc Hv Hp).
  unfold classify.
  assert (E : threshold_reached false reverse v c = Raised TypeError).
  { destruct reverse;
      [rewrite threshold_reached_reverse | rewrite threshold_reached_range];
      rewrite Hf; simpl; destruct v; try discriminate; reflexivity. }
  rewrite E. reflexivity.
Qed.

Lemma range_mode_needs_a_number_witness :
  validate_result
    (H := Scripted.world [Scripted.at_bean "b" (Scripted.single "b" (PStr "RUNNING"))])
    (Scripted.bean "b") (Literal (PInt 1)) (Literal (PInt 2)) false None false
    Scripted.start
  = (Raised TypeError, mkState 1 []).
Proof.
  apply (range_mode_needs_a_number
           (H := Scripted.world
                   [Scripted.at_bean "b" (Scripted.single "b" (PStr "RUNNING"))])
           (Scripted.bean "b") (Literal (PInt 1)) (Literal (PInt 2)) None false
           (PInt 1) (PInt 2) (PStr "RUNNING") (PStr "RUNNING") None
           (S754_finite false 4503599627370496 (-51))
           Scripted.start Scripted.start Scripted.start (mkState 1 []) (mkState 1 []));
    reflexivity.
Defined.

(** X24. In range mode a critical threshold that is a string [float] does
    not accept makes the evaluation raise [ValueError], whatever the value
    is: the threshold is converted before anything is compared. *)
Theorem range_mode_needs_a_numeric_threshold `{World} (mbean : MBean.t)
    (tw tc : Threshold) (second : option MBean.t) (reverse : bool)
    (w v0 v : pyval) (s : string) (factors : option string)
    (st st1 st2 st3 st4 : State) :
  resolve_threshold "Warning" tw st = (Returned (inr w), st1) ->
  resolve_threshold "Critical" tc st1 = (Returned (inr (PStr s)), st2) ->
  first_value mbean st2 = (Returned v0, st3) ->
  as_percentage v0 second st3 = (Returned (v, factors), st4) ->
  float_of_str s = None ->
  validate_result mbean tw tc false second reverse st = (Raised ValueError, st4).
Proof.
  intros Hw Hc Hv Hp Hf.
  rewrite (validate_result_phases _ _ _ _ _ _ _ _ _ _ _ _ _ _ _ _ Hw Hc Hv Hp).
  unfold classify.
  assert (E : threshold_reached false reverse v (PStr s) = Raised ValueError).
  { destruct reverse;
      [rewrite threshold_reached_reverse | rewrite threshold_reached_range];
      simpl; rewrite Hf; reflexivity. }
  rewrite E. reflexivity.
Qed.

Lemma range_mode_needs_a_numeric_threshold_witness :
  validate_result
    (H := Scripted.world [Scripted.at_bean "b" (Scripted.single "b" (PInt 1))])
    (Scripted.bean "b") (Literal (PStr "1")) (Literal (PStr "high")) false None false
    Scripted.start
  = (Raised ValueError, mkState 1 []).
Proof.
  apply (range_mode_needs_a_numeric_threshold
           (H := Scripted.world [Scripted.at_bean "b" (Scripted.single "b" (PInt 1))])
           (Scripted.bean "b") (Literal (PStr "1")) (Literal (PStr "high")) None false
           (PStr "1") (PInt 1) (PInt 1) "high" None
           Scripted.start Scripted.start Scripted.start (mkState 1 []) (mkState 1 []));
    reflexivity.
Defined.

(** *** The order of severities in range mode *)

Lemma py_ge_int_mono (z z' : Z) (f : spec_float) :
  z <= z' -> py_ge (PInt z) f = Returned true -> py_ge (PInt z') f = Returned true.
Proof.
  intros Hz. unfold py_ge, py_compare_float, and_then, Z_compare_float.
  destruct f as [s|s| |s m e]; try (intros E; exact E).
  - destruct (Z.compare_spec z 0), (Z.compare_spec z' 0);
      try reflexivity; try discriminate; lia.
  - destruct (0 <=? e) eqn:E.
    + set (K := (if s then Z.neg m else Z.pos m) * 2 ^ e).
      destruct (Z.compare_spec z K), (Z.compare_spec z' K);
        try reflexivity; try discriminate; lia.
    + apply Z.leb_gt in E.
      assert (HP : 0 < 2 ^ (- e)) by (apply Z.pow_pos_nonneg; lia).
      set (P := 2 ^ (- e)) in *. set (M := if s then Z.neg m else Z.pos m).
      destruct (Z.compare_spec (z * P) M), (Z.compare_spec (z' * P) M);
        try reflexivity; try discriminate; nia.
Qed.

Lemma py_le_int_mono (z z' : Z) (f : spec_float) :
  z <= z' -> py_le (PInt z') f = Returned true -> py_le (PInt z) f = Returned true.
Proof.
  intros Hz. unfold py_le, py_compare_float, and_then, Z_compare_float.
  destruct f as [s|s| |s m e]; try (intros E; exact E).
  - destruct (Z.compare_spec z 0), (Z.compare_spec z' 0);
      try reflexivity; try discriminate; lia.
  - destruct (0 <=? e) eqn:E.
    + set (K := (if s then Z.neg m else Z.pos m) * 2 ^ e).
      destruct (Z.compare_spec z K), (Z.compare_spec z' K);
        try reflexivity; try discriminate; lia.
    + apply Z.leb_gt in E.
      assert (HP : 0 < 2 ^ (- e)) by (apply Z.pow_pos_nonneg; lia).
      set (P := 2 ^ (- e)) in *. set (M := if s then Z.neg m else Z.pos m).
      destruct (Z.compare_spec (z * P) M), (Z.compare_spec (z' * P) M);
        try reflexivity; try discriminate; nia.
Qed.

Lemma py_ge_int_returns (z : Z) (f : spec_float) :
  exists b, py_ge (PInt z) f = Returned b.
Proof. unfold py_ge, py_compare_float, and_then. eexists. reflexivity. Qed.

Lemma py_le_int_returns (z : Z) (f : spec_float) :
  exists b, py_le (PInt z) f = Returned b.
Proof. unfold py_le, py_compare_float, and_then. eexists. reflexivity. Qed.

Lemma reached_int_mono `{World} (reverse : bool) (z z' : Z) (t : pyval) (a b : bool) :
  z <= z' ->
  threshold_reached false reverse (PInt z) t = Returned a ->
  threshold_reached false reverse (PInt z') t = Returned b ->
  if reverse then b = true -> a = true else a = true -> b = true.
Proof.
  intros Hz. destruct reverse.
  - rewrite !threshold_reached_reverse.
    destruct (py_float t) as [f|e]; simpl; [|discriminate].
    intros Ha Hb ->.
    rewrite (py_le_int_mono z z' f Hz Hb) in Ha. injection Ha as <-. reflexivity.
  - rewrite !threshold_reached_range.
    destruct (py_float t) as [f|e]; simpl; [|discriminate].
    intros Ha Hb ->.
    rewrite (py_ge_int_mono z z' f Hz Ha) in Hb. injection Hb as <-. reflexivity.
Qed.

Lemma classify_int_mono `{World} (reverse : bool) (z z' : Z) (w c : pyval) (a b : Z) :
  z <= z' ->
  classify false reverse (PInt z) w c = Returned a ->
  classify false reverse (PInt z') w c = Returned b ->
  if reverse then b <= a else a <= b.
Proof.
  intros Hz. unfold classify.
  destruct (threshold_reached false reverse (PInt z) c) as [ca|e] eqn:Ca; [|discriminate].
  destruct (threshold_reached false reverse (PInt z') c) as [cb|e] eqn:Cb; [|discriminate].
  pose proof (reached_int_mono reverse z z' c ca cb Hz Ca Cb) as Mc.
  simpl.
  destruct (threshold_reached false reverse (PInt z) w) as [wa|e] eqn:Wa;
    destruct (threshold_reached false reverse (PInt z') w) as [wb|e'] eqn:Wb;
    try (pose proof (reached_int_mono reverse z z' w wa wb Hz Wa Wb) as Mw);
    destruct ca, cb; simpl; try discriminate;
    try (destruct wa); try (destruct wb); simpl;
    intros [= <-] [= <-]; destruct reverse; simpl in *;
    try lia;
    try (specialize (Mc eq_refl); discriminate);
    try (specialize (Mw eq_refl); discriminate).
Qed.

(** X25. In range mode the severity follows the order of the integer
    values, whatever the two thresholds are: of two evaluations with the
    same literal thresholds, the one with the larger value never gets the
    lower severity, and in reverse mode never the higher one. *)
Theorem severity_follows_value `{World} (mbean mbean' : MBean.t) (w c : pyval)
    (reverse : bool) (z z' a b : Z) (sa sb : option string)
    (st st1 st2 st' st1' st2' : State) :
  first_value mbean st = (Returned (PInt z), st1) ->
  first_value mbean' st' = (Returned (PInt z'), st1') ->
  validate_result mbean (Literal w) (Literal c) false None reverse st
  = (Returned (a, sa), st2) ->
  validate_result mbean' (Literal w) (Literal c) false None reverse st'
  = (Returned (b, sb), st2') ->
  z <= z' ->
  if reverse then b <= a else a <= b.
Proof.
  intros Hv Hv' Ha Hb Hz.
  rewrite (validate_result_phases mbean (Literal w) (Literal c) false None reverse
             w c (PInt z) (PInt z) None st st st st1 st1
             eq_refl eq_refl Hv eq_refl) in Ha.
  rewrite (validate_result_phases mbean' (Literal w) (Literal c) false None reverse
             w c (PInt z') (PInt z') None st' st' st' st1' st1'
             eq_refl eq_refl Hv' eq_refl) in Hb.
  destruct (classify false reverse (PInt z) w c) as [a'|e] eqn:Ka; [|discriminate].
  destruct (classify false reverse (PInt z') w c) as [b'|e] eqn:Kb; [|discriminate].
  simpl in Ha, Hb. injection Ha as <- _ _. injection Hb as <- _ _.
  exact (classify_int_mono reverse z z' w c a' b' Hz Ka Kb).
Qed.

Lemma severity_follows_value_witness :
  validate_result
    (H := Scripted.world [Scripted.at_bean "low" (Scripted.single "low" (PInt 15));
                          Scripted.at_bean "high" (Scripted.single "high" (PInt 25))])
    (Scripted.bean "low") (Literal (PInt 10)) (Literal (PInt 20)) false None false
    Scripted.start
  = (Returned (1, Some "15"), mkState 1 [])
  /\ validate_result
       (H := Scripted.world [Scripted.at_bean "low" (Scripted.single "low" (PInt 15));
                             Scripted.at_bean "high" (Scripted.single "high" (PInt 25))])
       (Scripted.bean "high") (Literal (PInt 10)) (Literal (PInt 20)) false None false
       Scripted.start
     = (Returned (2, Some "25"), mkState 1 [])
  /\ 1 <= 2.
Proof.
  split; [reflexivity|]. split; [reflexivity|].
  apply (severity_follows_value
           (H := Scripted.world
                   [Scripted.at_bean "low" (Scripted.single "low" (PInt 15));
                    Scripted.at_bean "high" (Scripted.single "high" (PInt 25))])
           (Scripted.bean "low") (Scripted.bean "high") (PInt 10) (PInt 20) false
           15 25 1 2 (Some "15") (Some "25")
           Scripted.start (mkState 1 []) (mkState 1 [])
           Scripted.start (mkState 1 []) (mkState 1 []));
    try reflexivity. lia.
Defined.

(** X26. "Equals" counts in both directions: in range mode, reversed or not,
    an integer value equal to an integer critical threshold of magnitude at
    most [2^53] is CRITICAL, whatever the warning threshold is. *)
Theorem value_equal_to_critical_is_critical `{World} (mbean : MBean.t)
    (tw tc : Threshold) (second : option MBean.t) (reverse : bool)
    (w v0 : pyval) (z : Z) (factors : option string) (st st1 st2 st3 st4 : State) :
  resolve_threshold "Warning" tw st = (Returned (inr w), st1) ->
  resolve_threshold "Critical" tc st1 = (Returned (inr (PInt z)), st2) ->
  first_value mbean st2 = (Returned v0, st3) ->
  as_percentage v0 second st3 = (Returned (PInt z, factors), st4) ->
  - 2 ^ 53 <= z <= 2 ^ 53 ->
  validate_result mbean tw tc false second reverse st
  = (Returned (2, Some (display (PInt z) factors)), st4).
Proof.
  intros Hw Hc Hv Hp Hz.
  rewrite (validate_result_phases _ _ _ _ _ _ _ _ _ _ _ _ _ _ _ _ Hw Hc Hv Hp).
  unfold classify. destruct reverse.
  - rewrite reverse_condition_on_small_int by assumption.
    rewrite Z.leb_refl. reflexivity.
  - rewrite range_condition_on_small_int by assumption.
    rewrite Z.leb_refl. reflexivity.
Qed.

Lemma value_equal_to_critical_is_critical_witness :
  - 2 ^ 53 <= 7 <= 2 ^ 53
  /\ validate_result
       (H := Scripted.world [Scripted.at_bean "b" (Scripted.single "b" (PInt 7))])
       (Scripted.bean "b") (Literal (PInt 3)) (Literal (PInt 7)) false None true
       Scripted.start
     = (Returned (2, Some "7"), mkState 1 []).
Proof.
  split; [lia|].
  apply (value_equal_to_critical_is_critical
           (H := Scripted.world [Scripted.at_bean "b" (Scripted.single "b" (PInt 7))])
           (Scripted.bean "b") (Literal (PInt 3)) (Literal (PInt 7)) None true
           (PInt 3) (PInt 7) 7 None
           Scripted.start Scripted.start Scripted.start (mkState 1 []) (mkState 1 []));
    try reflexivity. lia.
Defined.

(** *** check_metric *)

(** The line printed for a result. *)
Lemma check_metric_after `{World} (self : JMXCheck.t) (mbean : MBean.t)
    (tw tc : Threshold) (compare print_result : bool) (second : option MBean.t)
    (reverse : bool) (st st1 : State) (code : Z) (shown : option string) :
  validate_result mbean tw tc compare second reverse st = (Returned (code, shown), st1) ->
  check_metric self mbean tw tc compare print_result second reverse st
  = (Returned code,
     if print_result then
       let st2 :=
         printed (classification code ++ " - " ++ MBean.mbean_name mbean
                    ++ " A:" ++ MBean.attribute mbean ++ key_part (MBean.key mbean)
                    ++ " : " ++ py_str_opt shown) st1 in
       if (explanation self code =? "")%string then st2
       else printed (explanation self code ++ String "010" "") st2
     else st1).
Proof.
  intros E. unfold check_metric. rewrite (bind_returned _ _ _ _ _ E).
  destruct print_result; [|reflexivity].
  unfold bind, print, ret, key_part.
  destruct (MBean.key mbean) as [k|]; simpl.
  - destruct (negb (k =? "")%string); simpl;
      destruct (explanation self code =? "")%string; reflexivity.
  - destruct (explanation self code =? "")%string; reflexivity.
Qed.



(** The message printed for an ambiguous threshold. *)
Lemma resolve_ambiguous_message `{World} (which : string) (m : MBean.t)
    (result : list MBeanResult.t) (st st' : State) :
  MBean.get_jmx_result m st = (Returned result, st') ->
  List.length result <> 1%nat ->
  resolve_threshold which (Bean m) st
  = (Returned (inl (2, None)),
     printed ("MONITORING ERROR - " ++ which
                ++ " threshold is MBean and does not return a "
                ++ (if (1 <? List.length result)%nat then "single value" else "value"))
       st').
Proof.
  intros Hget Hlen. unfold resolve_threshold.
  rewrite (bind_returned _ _ _ _ _ Hget).
  destruct result as [|r [|r' rest]].
  - reflexivity.
  - exfalso. apply Hlen. reflexivity.
  - reflexivity.
Qed.

(** X28. A threshold MBean whose fetch is ambiguous shows in the report as
    the monitoring error of that threshold ("Warning" or "Critical"; "does
    not return a single value" for several samples, "does not return a
    value" for none), followed by a CRITICAL line whose display value is
    [None], and then the critical explanation if one is configured; the
    severity returned is 2. *)
Theorem ambiguous_threshold_report `{World} (self : JMXCheck.t) (mbean m : MBean.t)
    (tw tc : Threshold) (compare : bool) (second : option MBean.t)
    (reverse : bool) (which : string) (result : list MBeanResult.t)
    (st st1 st2 : State) :
  (which = "Warning" /\ tw = Bean m /\ st1 = st
   \/ which = "Critical" /\ tc = Bean m
      /\ exists w, resolve_threshold "Warning" tw st = (Returned (inr w), st1)) ->
  MBean.get_jmx_result m st1 = (Returned result, st2) ->
  List.length result <> 1%nat ->
  exists st3,
    check_metric self mbean tw tc compare true second reverse st = (Returned 2, st3)
    /\ requests_made st3 = requests_made st2
    /\ stdout st3
       = (stdout st2
          ++ [("MONITORING ERROR - " ++ which
                 ++ " threshold is MBean and does not return a "
                 ++ (if (1 <? List.length result)%nat then "single value"
                     else "value"))%string;
              ("CRITICAL - " ++ MBean.mbean_name mbean ++ " A:" ++ MBean.attribute mbean
                 ++ key_part (MBean.key mbean) ++ " : None")%string]
          ++ (if (crit_expalanation self =? "")%string then []
              else [(crit_expalanation self ++ String "010" "")%string]))%list.
Proof.
  intros Hwhich Hget Hlen.
  assert (E : validate_result mbean tw tc compare second reverse st
              = (Returned (2, None),
                 printed ("MONITORING ERROR - " ++ which
                            ++ " threshold is MBean and does not return a "
                            ++ (if (1 <? List.length result)%nat then "single value"
                                else "value")) st2)).
  { destruct Hwhich as [(-> & -> & ->)|(-> & -> & w & Hw)]; unfold validate_result.
    - rewrite (bind_returned _ _ _ _ _
                 (resolve_ambiguous_message "Warning" _ _ _ _ Hget Hlen)).
      reflexivity.
    - rewrite (bind_returned _ _ _ _ _ Hw).
      rewrite (bind_returned _ _ _ _ _
                 (resolve_ambiguous_message "Critical" _ _ _ _ Hget Hlen)).
      reflexivity. }
  rewrite (check_metric_after self _ _ _ _ true _ _ _ _ _ _ E).
  eexists. split; [reflexivity|].
  change (explanation self 2) with (crit_expalanation self).
  change (classification 2) with "CRITICAL".
  destruct (crit_expalanation self =? "")%string; simpl.
  - split; [reflexivity|]. rewrite <- app_assoc. reflexivity.
  - split; [reflexivity|]. rewrite <- !app_assoc. reflexivity.
Qed.

Lemma ambiguous_threshold_report_witness :
  exists st3,
    check_metric
      (H := Scripted.world
              [Scripted.at_bean "b" (Scripted.single "b" (PInt 1));
               Scripted.at_bean "limits:*"
                 (Scripted.pattern [("limits:n=1", PInt 10); ("limits:n=2", PInt 20)])])
      (JMXCheck.mk "" "Call the on-call engineer.")
      (Scripted.bean "b") (Literal (PInt 5)) (Bean (Scripted.bean "limits:*"))
      false true None false Scripted.start
    = (Returned 2, st3)
    /\ requests_made st3 = 1%nat
    /\ stdout st3
       = ["MONITORING ERROR - Critical threshold is MBean and does not return a single value";
          "CRITICAL - b A:Value : None";
          "Call the on-call engineer." ++ String "010" ""].
Proof.
  apply (ambiguous_threshold_report
           (H := Scripted.world
                   [Scripted.at_bean "b" (Scripted.single "b" (PInt 1));
                    Scripted.at_bean "limits:*"
                      (Scripted.pattern
                         [("limits:n=1", PInt 10); ("limits:n=2", PInt 20)])])
           (JMXCheck.mk "" "Call the on-call engineer.")
           (Scripted.bean "b") (Scripted.bean "limits:*")
           (Literal (PInt 5)) (Bean (Scripted.bean "limits:*")) false None false
           "Critical"
           [MBeanResult.init (PStr "limits:n=1") (PDict [("Value", PInt 10)]);
            MBeanResult.init (PStr "limits:n=2") (PDict [("Value", PInt 20)])]
           Scripted.start Scripted.start (mkState 1 [])).
  - right. split; [reflexivity|]. split; [reflexivity|]. exists (PInt 5). reflexivity.
  - reflexivity.
  - simpl. lia.
Defined.
